(** * docs/conf.py: the Sphinx configuration module of agentic-control

    The module is a straight-line Python script: two imports, one call that
    prepends a directory to [sys.path], and thirty-eight top-level
    assignments of literals.  It is embedded here as a computation in a
    state-and-exception monad over the part of the interpreter the script
    can touch: the working directory, [sys.path], [sys.modules], the import
    system and the namespace of the module. *)

From Stdlib Require Import String Ascii List Bool ZArith.
From Stdlib Require Import Permutation.
Import ListNotations.
Open Scope string_scope.
Set Warnings "-register-all".

(** ** Python values *)

(** The literals that occur in the module, and module objects (the values
    the names [os] and [sys] are bound to).  Every dictionary literal of
    the module has string keys; a dictionary keeps its insertion order. *)
Inductive pyval : Type :=
| PyNone
| PyBool (b : bool)
| PyInt (n : Z)
| PyStr (s : string)
| PyList (xs : list pyval)
| PyTuple (xs : list pyval)
| PyDict (kvs : list (string * pyval))
| PyModule (name : string).

Definition is_dict (v : pyval) : bool :=
  match v with PyDict _ => true | _ => false end.

Definition is_module (v : pyval) : bool :=
  match v with PyModule _ => true | _ => false end.

(** Strings, booleans, integers and [None]: values with no structure. *)
Definition is_scalar (v : pyval) : bool :=
  match v with
  | PyNone | PyBool _ | PyInt _ | PyStr _ => true
  | _ => false
  end.

(** ** Ordered string-keyed dictionaries *)

Module Dict.

Definition t := list (string * pyval).

Fixpoint get (k : string) (d : t) : option pyval :=
  match d with
  | [] => None
  | (k', v) :: d' => if String.eqb k k' then Some v else get k d'
  end.

(** [d[k] = v]: overwrite in place when [k] is present, append otherwise. *)
Fixpoint set (k : string) (v : pyval) (d : t) : t :=
  match d with
  | [] => [(k, v)]
  | (k', v') :: d' =>
      if String.eqb k k' then (k, v) :: d' else (k', v') :: set k v d'
  end.

Definition keys (d : t) : list string := map fst d.
Definition values (d : t) : list pyval := map snd d.

End Dict.

(** ** The interpreter state the module can reach *)

(** What importing a module that is not yet in [sys.modules] does.
    [Found also]: the module is found and initialised, and the modules
    [also] are loaded on the way (those its initialisation imports in
    turn).  [NotFound partial]: the import fails, because no finder knows
    the name or because its entry in [sys.modules] is [None], with the
    modules [partial] already loaded by then. *)
Inductive found : Type :=
| Found (also : list string)
| NotFound (partial : list string).

(** The import system of the interpreter: whether its [builtins] module
    has [__import__], which the import statement calls, and what importing
    each name does. *)
Record import_system : Type := mkImports {
  has_builtin_import : bool;
  find_module : string -> found
}.

(** [cwd] is the process's working directory, [None] when it cannot be
    resolved (the directory was removed), in which case [os.getcwd()]
    raises [FileNotFoundError].  [sys_path] is the interpreter's import
    path and [sys_modules] the names that [sys.modules] maps to a module,
    in the order they were loaded.  [globals] is the namespace of the
    module being evaluated.  The platform is a POSIX one: [os.path] is
    [posixpath]. *)
Record interp : Type := mkInterp {
  cwd : option string;
  sys_path : list string;
  sys_modules : list string;
  globals : Dict.t;
  imports : import_system
}.

(** The exceptions lines 6-10 can end in: [ImportError] when the import
    statement finds no [__import__], [ModuleNotFoundError] when the module
    cannot be imported, [FileNotFoundError] from [os.getcwd()]. *)
Inductive exn : Type :=
| ImportError
| ModuleNotFoundError
| FileNotFoundError.

Inductive outcome (A : Type) : Type :=
| Returned (a : A) (s : interp)
| Raised (e : exn) (s : interp).
Arguments Returned {A} a s.
Arguments Raised {A} e s.

Definition state_of {A} (o : outcome A) : interp :=
  match o with Returned _ s => s | Raised _ s => s end.

Definition py (A : Type) : Type := interp -> outcome A.

Definition ret {A} (a : A) : py A := fun s => Returned a s.

Definition bind {A B} (m : py A) (k : A -> py B) : py B :=
  fun s =>
    match m s with
    | Returned a s' => k a s'
    | Raised e s' => Raised e s'
    end.

Definition raise {A} (e : exn) : py A := fun s => Raised e s.

Declare Scope py_scope.
Delimit Scope py_scope with py.
Notation "x <- m ;; k" := (bind m (fun x => k))
  (at level 61, m at next level, right associativity) : py_scope.
Notation "m ;; k" := (bind m (fun _ => k))
  (at level 61, right associativity) : py_scope.
Open Scope py_scope.

(** ** The library calls of lines 6-10 *)

(** [os.path] on a POSIX platform: the standard library's [posixpath],
    which is not part of this repository, restricted to what [abspath]
    uses ([join], [normpath], [isabs]).  On Windows [os.path] is [ntpath],
    with another path syntax; that platform is outside this development,
    and what is proved about the computed path is proved for POSIX
    working directories. *)
Module PosixPath.

Definition sep : string := "/".

Definition startswith (s p : string) : bool := String.prefix p s.

Fixpoint endswith_sep (s : string) : bool :=
  match s with
  | EmptyString => false
  | String c EmptyString => Ascii.eqb c "/"
  | String _ s' => endswith_sep s'
  end.

(** [s.split("/")] *)
Fixpoint split (s : string) : list string :=
  match s with
  | EmptyString => [EmptyString]
  | String c s' =>
      if Ascii.eqb c "/" then EmptyString :: split s'
      else match split s' with
           | [] => [String c EmptyString]
           | w :: ws => String c w :: ws
           end
  end.

Definition isabs (s : string) : bool := startswith s sep.

(** [join(a, b)] with a single tail component. *)
Definition join (a b : string) : string :=
  if startswith b sep || String.eqb a EmptyString then b
  else if endswith_sep a then a ++ b
  else a ++ sep ++ b.

Definition is_nil {A} (l : list A) : bool :=
  match l with [] => true | _ => false end.

(** One turn of the loop of [normpath] over the components. *)
Definition normpath_step (initial_slashes : nat)
           (new_comps : list string) (comp : string) : list string :=
  if String.eqb comp EmptyString || String.eqb comp "." then new_comps
  else if negb (String.eqb comp "..")
          || (Nat.eqb initial_slashes 0 && is_nil new_comps)
          || (negb (is_nil new_comps) && String.eqb (last new_comps EmptyString) "..")
       then new_comps ++ [comp]
  else if negb (is_nil new_comps) then removelast new_comps
  else new_comps.

Definition normpath (path : string) : string :=
  if String.eqb path EmptyString then "."
  else
    let initial_slashes :=
      if startswith path sep then
        if startswith path "//" && negb (startswith path "///") then 2 else 1
      else 0 in
    let comps := fold_left (normpath_step initial_slashes) (split path) [] in
    let path' :=
      String.concat EmptyString (repeat sep initial_slashes) ++ String.concat sep comps in
    if String.eqb path' EmptyString then "." else path'.

End PosixPath.

Definition os_getcwd : py string :=
  fun s =>
    match cwd s with
    | Some d => ret d s
    | None => raise FileNotFoundError s
    end.

Definition os_path_abspath (path : string) : py string :=
  if PosixPath.isabs path then ret (PosixPath.normpath path)
  else d <- os_getcwd ;; ret (PosixPath.normpath (PosixPath.join d path)).

(** [sys.path.insert(i, x)] for a non-negative index: [x] lands before
    position [i], at the end when [i] is past it. *)
Definition list_insert {A} (i : nat) (x : A) (l : list A) : list A :=
  firstn i l ++ x :: skipn i l.

Definition sys_path_insert (i : nat) (x : string) : py unit :=
  fun s =>
    Returned tt (mkInterp (cwd s) (list_insert i x (sys_path s))
                          (sys_modules s) (globals s) (imports s)).

(** One more name in [sys.modules], behind the others, unless it is
    there. *)
Definition ensure_loaded (m : string) (mods : list string) : list string :=
  if existsb (String.eqb m) mods then mods else mods ++ [m].

Definition load_modules (names mods : list string) : list string :=
  fold_left (fun acc m => ensure_loaded m acc) names mods.

(** The import statement looks [__import__] up in the builtins of the
    running code: the dictionary bound to [__builtins__] in the namespace
    when there is one, the interpreter's [builtins] module otherwise. *)
Definition has_import (s : interp) : bool :=
  match Dict.get "__builtins__" (globals s) with
  | Some (PyDict b) =>
      match Dict.get "__import__" b with Some _ => true | None => false end
  | _ => has_builtin_import (imports s)
  end.

(** [sys.modules] after importing [m], and whether the import succeeded.
    A module that is loaded is returned as it is; another one is looked
    for, and loading it loads the modules it imports in turn. *)
Definition resolve (i : import_system) (m : string) (mods : list string)
  : list string * bool :=
  if existsb (String.eqb m) mods then (mods, true)
  else match find_module i m with
       | Found also => (load_modules (m :: also) mods, true)
       | NotFound partial => (load_modules partial mods, false)
       end.

(** [import m]: without [__import__] it raises [ImportError]; a module
    that cannot be imported raises [ModuleNotFoundError]; otherwise the
    name [m] is bound to the module in the namespace. *)
Definition import (m : string) : py unit :=
  fun s =>
    if has_import s then
      let (mods, ok) := resolve (imports s) m (sys_modules s) in
      if ok then
        Returned tt (mkInterp (cwd s) (sys_path s) mods
                              (Dict.set m (PyModule m) (globals s))
                              (imports s))
      else
        Raised ModuleNotFoundError
               (mkInterp (cwd s) (sys_path s) mods (globals s) (imports s))
    else Raised ImportError s.

(** [k = v] at module top level. *)
Definition assign (k : string) (v : pyval) : py unit :=
  fun s =>
    Returned tt (mkInterp (cwd s) (sys_path s) (sys_modules s)
                          (Dict.set k v (globals s)) (imports s)).

Notation "k ::= v" := (assign k v) (at level 60, no associativity) : py_scope.

(** ** The module, in the order of the source *)

Definition str (x : string) : pyval := PyStr x.
Definition strs (xs : list string) : pyval := PyList (map PyStr xs).

(** Lines 6-10. *)
Definition add_python_source_to_path : py unit :=
  import "os" ;;
  import "sys" ;;
  p <- os_path_abspath "../python/src" ;;
  sys_path_insert 0 p.

(** Lines 15-18. *)
Definition project_information : py unit :=
  "project" ::= str "agentic-control" ;;
  "copyright" ::= str "2025, Jon Bogaty" ;;
  "author" ::= str "Jon Bogaty" ;;
  "release" ::= str "1.1.0".

(** Lines 23-46. *)
Definition general_configuration : py unit :=
  "extensions" ::= strs [
    "sphinx.ext.autodoc";
    "sphinx.ext.autosummary";
    "sphinx.ext.napoleon";
    "sphinx.ext.viewcode";
    "sphinx.ext.intersphinx";
    "sphinx_autodoc_typehints";
    "sphinx_js";
    "myst_parser";
    "sphinxcontrib.mermaid"
  ] ;;
  "templates_path" ::= strs ["_templates"] ;;
  "exclude_patterns" ::= strs ["_build"; "Thumbs.db"; ".DS_Store"] ;;
  "source_suffix" ::= PyDict [
    (".rst", str "restructuredtext");
    (".md", str "markdown")
  ].

(** Lines 51-63. *)
Definition options_for_html_output : py unit :=
  "html_theme" ::= str "sphinx_rtd_theme" ;;
  "html_static_path" ::= strs ["_static"] ;;
  "html_title" ::= str "agentic-control Documentation" ;;
  "html_short_title" ::= str "agentic-control" ;;
  "html_theme_options" ::= PyDict [
    ("navigation_depth", PyInt 4);
    ("collapse_navigation", PyBool false);
    ("sticky_navigation", PyBool true);
    ("includehidden", PyBool true);
    ("titles_only", PyBool false)
  ].

(** Lines 68-127. *)
Definition extension_configuration : py unit :=
  "autodoc_default_options" ::= PyDict [
    ("members", PyBool true);
    ("member-order", str "bysource");
    ("special-members", str "__init__");
    ("undoc-members", PyBool true);
    ("exclude-members", str "__weakref__");
    ("show-inheritance", PyBool true)
  ] ;;
  "autodoc_typehints" ::= str "description" ;;
  "autodoc_class_signature" ::= str "separated" ;;
  "autosummary_generate" ::= PyBool true ;;
  "napoleon_google_docstring" ::= PyBool true ;;
  "napoleon_numpy_docstring" ::= PyBool true ;;
  "napoleon_include_init_with_doc" ::= PyBool true ;;
  "napoleon_include_private_with_doc" ::= PyBool false ;;
  "napoleon_include_special_with_doc" ::= PyBool true ;;
  "napoleon_use_admonition_for_examples" ::= PyBool true ;;
  "napoleon_use_admonition_for_notes" ::= PyBool true ;;
  "napoleon_use_admonition_for_references" ::= PyBool true ;;
  "napoleon_use_ivar" ::= PyBool false ;;
  "napoleon_use_param" ::= PyBool true ;;
  "napoleon_use_rtype" ::= PyBool true ;;
  "napoleon_preprocess_types" ::= PyBool true ;;
  "napoleon_attr_annotations" ::= PyBool true ;;
  "js_language" ::= str "typescript" ;;
  "js_source_path" ::= strs ["../src"] ;;
  "jsdoc_config_path" ::= str "../typedoc.json" ;;
  "root_for_relative_js_paths" ::= str "../src" ;;
  "intersphinx_mapping" ::= PyDict [
    ("python", PyTuple [str "https://docs.python.org/3"; PyNone])
  ] ;;
  "myst_enable_extensions" ::= strs [
    "colon_fence";
    "deflist";
    "fieldlist";
    "html_admonition";
    "html_image";
    "replacements";
    "smartquotes";
    "strikethrough";
    "substitution";
    "tasklist"
  ] ;;
  "myst_heading_anchors" ::= PyInt 3 ;;
  "html_css_files" ::= strs ["custom.css"].

(** Lines 15-127: the assignments. *)
Definition settings : py unit :=
  project_information ;;
  general_configuration ;;
  options_for_html_output ;;
  extension_configuration.

Definition conf_py : py unit :=
  add_python_source_to_path ;;
  settings.

(** ** Loading the module *)

(** What the module meets when it is evaluated: a working directory (or
    none), an import path, the loaded modules and an import system. *)
Record env : Type := mkEnv {
  env_cwd : option string;
  env_sys_path : list string;
  env_sys_modules : list string;
  env_imports : import_system
}.

(** The module body runs in a fresh namespace. *)
Definition fresh (e : env) : interp :=
  mkInterp (env_cwd e) (env_sys_path e) (env_sys_modules e) []
           (env_imports e).

Definition load (e : env) : outcome unit := conf_py (fresh e).

(** The names the module binds by assignment: its configuration keys. *)
Definition config_keys (st : interp) : list string :=
  Dict.keys (filter (fun kv => negb (is_module (snd kv))) (globals st)).

(** The import system of a CPython 3.12 on POSIX: the first import of
    [os] also loads [stat], [_stat], [_collections_abc], [posixpath],
    [genericpath] and [os.path]; [sys] is built in. *)
Definition cpython : import_system :=
  mkImports true
    (fun m =>
       if String.eqb m "os" then
         Found ["stat"; "_stat"; "_collections_abc"; "posixpath";
                "genericpath"; "os.path"]
       else if String.eqb m "sys" then Found []
       else NotFound []).

(** An interpreter whose [builtins] module has lost [__import__]. *)
Definition no_import : import_system :=
  mkImports false (find_module cpython).

(** An interpreter in which [os] cannot be imported ([sys.modules] maps
    it to [None], or no finder has it). *)
Definition os_blocked : import_system :=
  mkImports true
    (fun m => if String.eqb m "sys" then Found [] else NotFound []).

(** A documentation build started in the [docs] directory of a checkout. *)
Definition env0 : env :=
  mkEnv (Some "/home/ci/agentic-control/docs")
        ["/usr/lib/python3.12"; "/usr/lib/python3.12/site-packages"]
        ["sys"; "builtins"; "os"; "sphinx"]
        cpython.

(** The working directory has been removed under the process. *)
Definition env_gone : env :=
  mkEnv None ["/usr/lib/python3.12"] ["sys"; "builtins"; "os"; "sphinx"]
        cpython.

(** A build of another checkout, with the same interpreter. *)
Definition env1 : env :=
  mkEnv (Some "/srv/build/docs")
        ["/usr/lib/python3.12"; "/usr/lib/python3.12/site-packages"]
        ["sys"; "builtins"; "os"; "sphinx"]
        cpython.

(** An interpreter started without [site]: [os] is not loaded yet. *)
Definition env_bare : env :=
  mkEnv (Some "/home/ci/agentic-control/docs")
        ["/usr/lib/python3.12"]
        ["sys"; "builtins"]
        cpython.

(** The interpreter of [env0] without [__import__]. *)
Definition env_no_import : env :=
  mkEnv (Some "/home/ci/agentic-control/docs")
        ["/usr/lib/python3.12"]
        ["sys"; "builtins"]
        no_import.

(** The interpreter of [env_bare] with [os] out of reach. *)
Definition env_os_blocked : env :=
  mkEnv (Some "/home/ci/agentic-control/docs")
        ["/usr/lib/python3.12"]
        ["sys"; "builtins"]
        os_blocked.

Definition st0 : interp := Eval vm_compute in state_of (load env0).
Definition st1 : interp := Eval vm_compute in state_of (load env1).
Definition st_bare : interp := Eval vm_compute in state_of (load env_bare).

(** The namespace a completed evaluation leaves behind, written out from
    lines 6-127: the two imported modules and the thirty-eight settings,
    in the order of the source. *)
Definition conf_namespace : Dict.t :=
  [ ("os", PyModule "os"); ("sys", PyModule "sys");
    ("project", PyStr "agentic-control");
    ("copyright", PyStr "2025, Jon Bogaty");
    ("author", PyStr "Jon Bogaty");
    ("release", PyStr "1.1.0");
    ("extensions",
     PyList
       [PyStr "sphinx.ext.autodoc"; PyStr "sphinx.ext.autosummary";
        PyStr "sphinx.ext.napoleon"; PyStr "sphinx.ext.viewcode";
        PyStr "sphinx.ext.intersphinx"; PyStr "sphinx_autodoc_typehints";
        PyStr "sphinx_js"; PyStr "myst_parser"; PyStr "sphinxcontrib.mermaid"]);
    ("templates_path", PyList [PyStr "_templates"]);
    ("exclude_patterns",
     PyList [PyStr "_build"; PyStr "Thumbs.db"; PyStr ".DS_Store"]);
    ("source_suffix",
     PyDict [(".rst", PyStr "restructuredtext"); (".md", PyStr "markdown")]);
    ("html_theme", PyStr "sphinx_rtd_theme");
    ("html_static_path", PyList [PyStr "_static"]);
    ("html_title", PyStr "agentic-control Documentation");
    ("html_short_title", PyStr "agentic-control");
    ("html_theme_options",
     PyDict
       [("navigation_depth", PyInt 4); ("collapse_navigation", PyBool false);
        ("sticky_navigation", PyBool true); ("includehidden", PyBool true);
        ("titles_only", PyBool false)]);
    ("autodoc_default_options",
     PyDict
       [("members", PyBool true); ("member-order", PyStr "bysource");
        ("special-members", PyStr "__init__"); ("undoc-members", PyBool true);
        ("exclude-members", PyStr "__weakref__");
        ("show-inheritance", PyBool true)]);
    ("autodoc_typehints", PyStr "description");
    ("autodoc_class_signature", PyStr "separated");
    ("autosummary_generate", PyBool true);
    ("napoleon_google_docstring", PyBool true);
    ("napoleon_numpy_docstring", PyBool true);
    ("napoleon_include_init_with_doc", PyBool true);
    ("napoleon_include_private_with_doc", PyBool false);
    ("napoleon_include_special_with_doc", PyBool true);
    ("napoleon_use_admonition_for_examples", PyBool true);
    ("napoleon_use_admonition_for_notes", PyBool true);
    ("napoleon_use_admonition_for_references", PyBool true);
    ("napoleon_use_ivar", PyBool false);
    ("napoleon_use_param", PyBool true);
    ("napoleon_use_rtype", PyBool true);
    ("napoleon_preprocess_types", PyBool true);
    ("napoleon_attr_annotations", PyBool true);
    ("js_language", PyStr "typescript");
    ("js_source_path", PyList [PyStr "../src"]);
    ("jsdoc_config_path", PyStr "../typedoc.json");
    ("root_for_relative_js_paths", PyStr "../src");
    ("intersphinx_mapping",
     PyDict [("python", PyTuple [PyStr "https://docs.python.org/3"; PyNone])]);
    ("myst_enable_extensions",
     PyList
       [PyStr "colon_fence"; PyStr "deflist"; PyStr "fieldlist";
        PyStr "html_admonition"; PyStr "html_image"; PyStr "replacements";
        PyStr "smartquotes"; PyStr "strikethrough"; PyStr "substitution";
        PyStr "tasklist"]);
    ("myst_heading_anchors", PyInt 3);
    ("html_css_files", PyList [PyStr "custom.css"]) ].

(** The settings alone: what lines 15-127 bind. *)
Definition conf_settings : Dict.t := skipn 2 conf_namespace.

(** The directory line 10 computes from the working directory [d]. *)
Definition python_src (d : string) : string :=
  PosixPath.normpath (PosixPath.join d "../python/src").

(** [sys.modules] after lines 6 and 7, and whether both imports
    succeeded. *)
Definition resolve_os_sys (i : import_system) (mods : list string)
  : list string * bool :=
  let (mods1, ok1) := resolve i "os" mods in
  if ok1 then resolve i "sys" mods1 else (mods1, false).

(** ** Section 6 of the specification: the table of recognized keys *)

(** A row of the table names keys in full or, for [napoleon_*], by prefix. *)
Inductive key_pattern : Type :=
| Exact (k : string)
| Prefix (p : string).

Definition spec_recognized_keys : list key_pattern :=
  [ Exact "project"; Exact "author"; Exact "release"; Exact "copyright";
    Exact "extensions";
    Exact "templates_path"; Exact "exclude_patterns";
    Exact "source_suffix";
    Exact "html_theme"; Exact "html_theme_options";
    Exact "html_static_path"; Exact "html_title";
    Exact "autodoc_default_options"; Exact "autodoc_typehints";
    Exact "autodoc_class_signature";
    Exact "autosummary_generate";
    Prefix "napoleon_";
    Exact "js_language"; Exact "js_source_path"; Exact "jsdoc_config_path";
    Exact "root_for_relative_js_paths";
    Exact "intersphinx_mapping";
    Exact "myst_enable_extensions"; Exact "myst_heading_anchors";
    Exact "html_css_files" ].

Definition matches (pat : key_pattern) (k : string) : bool :=
  match pat with
  | Exact k' => String.eqb k k'
  | Prefix p => String.prefix p k
  end.

Definition spec_lists (k : string) : bool :=
  existsb (fun pat => matches pat k) spec_recognized_keys.

(** ** Shapes of settings *)

(** The settings whose name starts with [g]. *)
Definition group_settings (g : string) (st : interp) : Dict.t :=
  filter (fun kv => String.prefix g (fst kv)) (globals st).

(** The dictionary-valued ones among them. *)
Definition group_mappings (g : string) (st : interp) : Dict.t :=
  filter (fun kv => is_dict (snd kv)) (group_settings g st).

(** Group [g] is one dictionary-valued setting whose values are scalars. *)
Definition one_flat_mapping (g : string) (st : interp) : Prop :=
  exists k d,
    group_mappings g st = [(k, PyDict d)] /\
    forallb is_scalar (Dict.values d) = true.

Definition is_bool (v : pyval) : bool :=
  match v with PyBool _ => true | _ => false end.

(** A two-element tuple of a documentation URL and an inventory. *)
Definition is_url_inventory_pair (v : pyval) : bool :=
  match v with
  | PyTuple [PyStr _; _] => true
  | _ => false
  end.

(** ** Evaluating in a namespace that already holds names *)

(** The bindings [bs] made one after the other, first to last. *)
Definition bind_all (bs : Dict.t) (g : Dict.t) : Dict.t :=
  fold_left (fun acc kv => Dict.set (fst kv) (snd kv) acc) bs g.

(** An interpreter in which a documentation build has put names of its
    own in the namespace, and an earlier [project], before the module
    body runs. *)
Definition st_prepared : interp :=
  mkInterp (Some "/home/ci/agentic-control/docs")
           ["/usr/lib/python3.12"]
           ["sys"; "builtins"; "os"; "sphinx"]
           [("__file__", PyStr "conf.py"); ("tags", PyNone);
            ("project", PyStr "stale")]
           cpython.



(** The decimal digits. *)
Definition is_digit (c : ascii) : bool :=
  (48 <=? nat_of_ascii c)%nat && (nat_of_ascii c <=? 57)%nat.

(** A year: four decimal digits. *)
Definition is_year (y : string) : bool :=
  (String.length y =? 4)%nat && forallb is_digit (list_ascii_of_string y).

(** An [https] address. *)
Definition is_https_url (u : string) : bool := String.prefix "https://" u.

(** ** Working directories in normal form *)

Fixpoint has_sep (s : string) : bool :=
  match s with
  | EmptyString => false
  | String c s' => Ascii.eqb c "/" || has_sep s'
  end.

(** A path component that [normpath] keeps as it is: not empty, not [.]
    or [..], and without a separator. *)
Definition plain_component (c : string) : bool :=
  negb (String.eqb c EmptyString) && negb (String.eqb c ".")
  && negb (String.eqb c "..") && negb (has_sep c).

(** The absolute path made of the components [comps]. *)
Definition rooted (comps : list string) : string :=
  "/" ++ String.concat "/" comps.

(** ** The sections of the module *)

(** The four headed sections of assignments, lines 12-127. *)
Inductive section : Type :=
| ProjectInformation
| GeneralConfiguration
| OptionsForHtmlOutput
| ExtensionConfiguration.

Definition run_section (x : section) : py unit :=
  match x with
  | ProjectInformation => project_information
  | GeneralConfiguration => general_configuration
  | OptionsForHtmlOutput => options_for_html_output
  | ExtensionConfiguration => extension_configuration
  end.

Fixpoint run_sections (l : list section) : py unit :=
  match l with
  | [] => ret tt
  | x :: l' => run_section x ;; run_sections l'
  end.

Definition source_order : list section :=
  [ProjectInformation; GeneralConfiguration; OptionsForHtmlOutput;
   ExtensionConfiguration].

(** What a section binds, read from its run in an empty namespace. *)
Definition bindings_of (x : section) : Dict.t :=
  globals (state_of (run_section x (mkInterp None [] [] [] cpython))).

(** ** Settings and the extensions they belong to *)

(** The extension each group of settings is for, after the headings of
    lines 67-109 ([autodoc settings], [autosummary settings], [napoleon
    settings], [sphinx-js settings], [intersphinx settings], [myst_parser
    settings]); a group is named by the prefix of its keys. *)
Definition extension_settings : list (string * string) :=
  [ ("autodoc_", "sphinx.ext.autodoc");
    ("autosummary_", "sphinx.ext.autosummary");
    ("napoleon_", "sphinx.ext.napoleon");
    ("js_", "sphinx_js");
    ("jsdoc_", "sphinx_js");
    ("root_for_relative_js_paths", "sphinx_js");
    ("intersphinx_", "sphinx.ext.intersphinx");
    ("myst_", "myst_parser") ].

Definition extension_of (k : string) : option string :=
  option_map snd
    (find (fun row => String.prefix (fst row) k) extension_settings).

(** The strings among the elements of a list. *)
Definition names_of (xs : list pyval) : list string :=
  flat_map (fun v => match v with PyStr t => [t] | _ => [] end) xs.

(** * Properties *)

(** ** Dictionaries *)

Lemma get_set_same (k : string) (v : pyval) (d : Dict.t) :
  Dict.get k (Dict.set k v d) = Some v.
Proof.
  induction d as [|[k' v'] d IH]; simpl.
  - now rewrite String.eqb_refl.
  - destruct (String.eqb k k') eqn:E; simpl; rewrite ?String.eqb_refl, ?E; auto.
Qed.

Lemma get_set_other (k k' : string) (v : pyval) (d : Dict.t) :
  k <> k' -> Dict.get k' (Dict.set k v d) = Dict.get k' d.
Proof.
  intros Hne. induction d as [|[k0 v0] d IH]; simpl.
  - destruct (String.eqb_spec k' k); [congruence | reflexivity].
  - destruct (String.eqb_spec k k0) as [->|Hk]; simpl.
    + destruct (String.eqb_spec k' k0); [congruence | reflexivity].
    + destruct (String.eqb_spec k' k0); [reflexivity | exact IH].
Qed.

(** Binding a name to the value it already has changes nothing. *)
Lemma set_present (k : string) (v : pyval) (d : Dict.t) :
  Dict.get k d = Some v -> Dict.set k v d = d.
Proof.
  induction d as [|[k' v'] d IH]; simpl; [discriminate|].
  destruct (String.eqb_spec k k') as [->|Hk].
  - now intros [= ->].
  - intros H. now rewrite (IH H).
Qed.

Lemma get_app_last (k k' : string) (v' : pyval) (d : Dict.t) :
  Dict.get k (d ++ [(k', v')])%list =
  match Dict.get k d with
  | Some v => Some v
  | None => if String.eqb k k' then Some v' else None
  end.
Proof.
  induction d as [|[k0 v0] d IH]; simpl; [reflexivity|].
  destruct (String.eqb k k0); [reflexivity | exact IH].
Qed.

(** Among several bindings of one name, the last one made stays. *)
Lemma get_bind_all (bs g : Dict.t) (k : string) :
  Dict.get k (bind_all bs g) =
  match Dict.get k (rev bs) with
  | Some v => Some v
  | None => Dict.get k g
  end.
Proof.
  revert g. induction bs as [|[k' v'] bs IH]; intros g; simpl; [reflexivity|].
  unfold bind_all in *. simpl. rewrite IH, get_app_last.
  destruct (Dict.get k (rev bs)); [reflexivity|].
  destruct (String.eqb_spec k k') as [->|Hk].
  - apply get_set_same.
  - apply get_set_other. congruence.
Qed.

Lemma get_some_in (k : string) (v : pyval) (d : Dict.t) :
  Dict.get k d = Some v -> In (k, v) d.
Proof.
  induction d as [|[k' v'] d IH]; simpl; [discriminate|].
  destruct (String.eqb_spec k k') as [->|Hk].
  - intros [= ->]. now left.
  - intros H. right. now apply IH.
Qed.

Lemma get_none_notin (k : string) (d : Dict.t) :
  Dict.get k d = None -> ~ In k (Dict.keys d).
Proof.
  induction d as [|[k' v'] d IH]; simpl; [tauto|].
  destruct (String.eqb_spec k k') as [->|Hk]; [discriminate|].
  intros H [E|Hin]; [congruence | now apply IH].
Qed.

Lemma in_get_nodup (k : string) (v : pyval) (d : Dict.t) :
  NoDup (Dict.keys d) -> In (k, v) d -> Dict.get k d = Some v.
Proof.
  induction d as [|[k' v'] d IH]; simpl; [tauto|].
  intros Hnd [E|Hin].
  - injection E as -> ->. now rewrite String.eqb_refl.
  - inversion Hnd as [|? ? Hnot Hnd']; subst.
    destruct (String.eqb_spec k k') as [->|Hk].
    + exfalso. apply Hnot. unfold Dict.keys.
      change k' with (fst (k', v)). now apply in_map.
    + now apply IH.
Qed.

(** With pairwise distinct keys the order of the entries does not show
    in a lookup. *)
Lemma get_perm_nodup (d d' : Dict.t) (k : string) :
  NoDup (Dict.keys d) ->
  (forall kv, In kv d <-> In kv d') ->
  NoDup (Dict.keys d') ->
  Dict.get k d = Dict.get k d'.
Proof.
  intros Hnd Hiff Hnd'.
  destruct (Dict.get k d) as [v|] eqn:G.
  - symmetry. apply in_get_nodup; [exact Hnd'|].
    apply Hiff. now apply get_some_in.
  - destruct (Dict.get k d') as [v'|] eqn:G'; [|reflexivity].
    apply get_some_in, Hiff in G'.
    rewrite (in_get_nodup k v' d Hnd G') in G. discriminate G.
Qed.

Lemma nodup_keys_rev (d : Dict.t) :
  NoDup (Dict.keys d) -> NoDup (Dict.keys (rev d)).
Proof.
  intros H. unfold Dict.keys. rewrite map_rev. now apply NoDup_rev.
Qed.

Lemma get_rev_nodup (d : Dict.t) (k : string) :
  NoDup (Dict.keys d) -> Dict.get k (rev d) = Dict.get k d.
Proof.
  intros H. apply get_perm_nodup.
  - now apply nodup_keys_rev.
  - intros kv. symmetry. apply in_rev.
  - exact H.
Qed.

(** String lists are compared by computation. *)
Lemma nodup_strings (l : list string) :
  (if list_eq_dec string_dec (nodup string_dec l) l then true else false) = true ->
  NoDup l.
Proof.
  destruct (list_eq_dec string_dec (nodup string_dec l) l) as [E|]; [|discriminate].
  intros _. rewrite <- E. apply NoDup_nodup.
Qed.

Lemma conf_namespace_nodup : NoDup (Dict.keys conf_namespace).
Proof. apply nodup_strings. vm_compute. reflexivity. Qed.


(** ** Loaded modules *)

Lemma ensure_loaded_present (m : string) (mods : list string) :
  existsb (String.eqb m) mods = true -> ensure_loaded m mods = mods.
Proof. intros H. unfold ensure_loaded. now rewrite H. Qed.

Lemma ensure_loaded_has (m : string) (mods : list string) :
  existsb (String.eqb m) (ensure_loaded m mods) = true.
Proof.
  unfold ensure_loaded. destruct (existsb (String.eqb m) mods) eqn:E; [exact E|].
  rewrite existsb_app. simpl. rewrite String.eqb_refl.
  now rewrite orb_true_r.
Qed.

Lemma ensure_loaded_keeps (m m' : string) (mods : list string) :
  existsb (String.eqb m') mods = true ->
  existsb (String.eqb m') (ensure_loaded m mods) = true.
Proof.
  intros H. unfold ensure_loaded.
  destruct (existsb (String.eqb m) mods); [exact H|].
  rewrite existsb_app, H. reflexivity.
Qed.

Lemma ensure_loaded_extends (m : string) (mods : list string) :
  exists add, ensure_loaded m mods = (mods ++ add)%list.
Proof.
  unfold ensure_loaded. destruct (existsb (String.eqb m) mods).
  - exists []. now rewrite app_nil_r.
  - now exists [m].
Qed.

Lemma load_modules_extends (names mods : list string) :
  exists add, load_modules names mods = (mods ++ add)%list.
Proof.
  revert mods. induction names as [|n names IH]; intros mods.
  - exists []. now rewrite app_nil_r.
  - cbn [load_modules fold_left].
    destruct (ensure_loaded_extends n mods) as (a & ->).
    destruct (IH (mods ++ a)%list) as (b & Hb). unfold load_modules in Hb.
    rewrite Hb. exists (a ++ b)%list. now rewrite app_assoc.
Qed.

Lemma load_modules_keeps (names mods : list string) (m : string) :
  existsb (String.eqb m) mods = true ->
  existsb (String.eqb m) (load_modules names mods) = true.
Proof.
  intros H. destruct (load_modules_extends names mods) as (add & ->).
  rewrite existsb_app, H. reflexivity.
Qed.

(** Importing keeps what is loaded, in order. *)
Lemma resolve_extends (i : import_system) (m : string) (mods : list string) :
  exists add, fst (resolve i m mods) = (mods ++ add)%list.
Proof.
  unfold resolve. destruct (existsb (String.eqb m) mods).
  - exists []. cbn [fst]. now rewrite app_nil_r.
  - destruct (find_module i m); cbn [fst]; apply load_modules_extends.
Qed.

(** A successful import leaves the module loaded. *)
Lemma resolve_loaded (i : import_system) (m : string) (mods mods' : list string) :
  resolve i m mods = (mods', true) -> existsb (String.eqb m) mods' = true.
Proof.
  unfold resolve. destruct (existsb (String.eqb m) mods) eqn:E.
  - now intros [= <-].
  - destruct (find_module i m); [|discriminate].
    intros [= <-]. cbn [load_modules fold_left].
    apply (load_modules_keeps also), ensure_loaded_has.
Qed.

(** A loaded module is imported without a change to [sys.modules]. *)
Lemma resolve_present (i : import_system) (m : string) (mods : list string) :
  existsb (String.eqb m) mods = true -> resolve i m mods = (mods, true).
Proof. intros H. unfold resolve. now rewrite H. Qed.

Lemma resolve_os_sys_extends (i : import_system) (mods : list string) :
  exists add, fst (resolve_os_sys i mods) = (mods ++ add)%list.
Proof.
  unfold resolve_os_sys.
  destruct (resolve_extends i "os" mods) as (a & Ha).
  destruct (resolve i "os" mods) as [m1 ok1]. cbn [fst] in Ha. subst m1.
  destruct ok1.
  - destruct (resolve_extends i "sys" (mods ++ a)) as (b & ->).
    exists (a ++ b)%list. now rewrite app_assoc.
  - now exists a.
Qed.

Lemma resolve_os_sys_loaded (i : import_system) (mods mods' : list string) :
  resolve_os_sys i mods = (mods', true) ->
  existsb (String.eqb "os") mods' = true /\
  existsb (String.eqb "sys") mods' = true.
Proof.
  unfold resolve_os_sys.
  destruct (resolve i "os" mods) as [m1 ok1] eqn:E1.
  destruct ok1; [|discriminate].
  intros E2. split; [|exact (resolve_loaded _ _ _ _ E2)].
  apply resolve_loaded in E1.
  destruct (resolve_extends i "sys" m1) as (b & Hb).
  rewrite E2 in Hb. cbn [fst] in Hb. subst mods'.
  rewrite existsb_app, E1. reflexivity.
Qed.

Lemma resolve_os_sys_present (i : import_system) (mods : list string) :
  existsb (String.eqb "os") mods = true ->
  existsb (String.eqb "sys") mods = true ->
  resolve_os_sys i mods = (mods, true).
Proof.
  intros Hos Hsys. unfold resolve_os_sys.
  rewrite (resolve_present i "os" mods Hos).
  apply resolve_present, Hsys.
Qed.

(** ** What an evaluation does *)

(** The assignments touch the namespace only, whatever the rest is. *)
Lemma settings_bind_all (c : option string) (p m : list string) (g : Dict.t)
      (i : import_system) :
  settings (mkInterp c p m g i) =
  Returned tt (mkInterp c p m (bind_all conf_settings g) i).
Proof. vm_compute. reflexivity. Qed.

(** Binding [os] and [sys] does not touch [__builtins__]. *)
Lemma has_import_frame (s s' : interp) :
  Dict.get "__builtins__" (globals s') = Dict.get "__builtins__" (globals s) ->
  imports s' = imports s ->
  has_import s' = has_import s.
Proof. intros Hg Hi. unfold has_import. now rewrite Hg, Hi. Qed.

(** Lines 6-10, case by case. *)
Lemma lines_6_10 (st : interp) :
  add_python_source_to_path st =
  if has_import st then
    let (mods1, ok1) := resolve (imports st) "os" (sys_modules st) in
    if ok1 then
      let (mods2, ok2) := resolve (imports st) "sys" mods1 in
      if ok2 then
        match cwd st with
        | Some d =>
            Returned tt
              (mkInterp (Some d) (python_src d :: sys_path st) mods2
                        (Dict.set "sys" (PyModule "sys")
                                  (Dict.set "os" (PyModule "os") (globals st)))
                        (imports st))
        | None =>
            Raised FileNotFoundError
              (mkInterp None (sys_path st) mods2
                        (Dict.set "sys" (PyModule "sys")
                                  (Dict.set "os" (PyModule "os") (globals st)))
                        (imports st))
        end
      else
        Raised ModuleNotFoundError
          (mkInterp (cwd st) (sys_path st) mods2
                    (Dict.set "os" (PyModule "os") (globals st)) (imports st))
    else
      Raised ModuleNotFoundError
        (mkInterp (cwd st) (sys_path st) mods1 (globals st) (imports st))
  else Raised ImportError st.
Proof.
  destruct st as [c p m g i]. cbn [cwd sys_path sys_modules globals imports].
  unfold add_python_source_to_path.
  unfold bind at 1. unfold import at 1.
  cbn [cwd sys_path sys_modules globals imports].
  destruct (has_import (mkInterp c p m g i)) eqn:Hi; [|reflexivity].
  destruct (resolve i "os" m) as [m1 ok1]. destruct ok1; [|reflexivity].
  unfold bind at 1. unfold import at 1.
  cbn [cwd sys_path sys_modules globals imports].
  rewrite (has_import_frame (mkInterp c p m g i)), Hi;
    [| cbn [globals]; apply get_set_other; discriminate | reflexivity].
  destruct (resolve i "sys" m1) as [m2 ok2]. destruct ok2; [|reflexivity].
  unfold bind at 1. unfold os_path_abspath.
  change (PosixPath.isabs "../python/src") with false. cbv iota.
  unfold bind at 1. unfold os_getcwd. cbn [cwd].
  destruct c as [d|]; reflexivity.
Qed.

(** An exception of lines 6-10 passes through the module: nothing
    catches it. *)
Lemma conf_py_split (st : interp) :
  conf_py st =
  match add_python_source_to_path st with
  | Returned _ mid => settings mid
  | Raised x s => Raised x s
  end.
Proof. reflexivity. Qed.

(** The outcomes of an evaluation from any interpreter state. *)
Inductive evaluated (st : interp) : outcome unit -> Prop :=
| NoImport :
    has_import st = false ->
    evaluated st (Raised ImportError st)
| NoModule mods g :
    has_import st = true ->
    resolve_os_sys (imports st) (sys_modules st) = (mods, false) ->
    (forall k, k <> "os" -> Dict.get k g = Dict.get k (globals st)) ->
    evaluated st (Raised ModuleNotFoundError
                         (mkInterp (cwd st) (sys_path st) mods g (imports st)))
| NoCwd mods :
    has_import st = true ->
    resolve_os_sys (imports st) (sys_modules st) = (mods, true) ->
    cwd st = None ->
    evaluated st (Raised FileNotFoundError
                         (mkInterp None (sys_path st) mods
                                   (Dict.set "sys" (PyModule "sys")
                                      (Dict.set "os" (PyModule "os") (globals st)))
                                   (imports st)))
| Completed mods d :
    has_import st = true ->
    resolve_os_sys (imports st) (sys_modules st) = (mods, true) ->
    cwd st = Some d ->
    evaluated st (Returned tt
                           (mkInterp (Some d) (python_src d :: sys_path st) mods
                                     (bind_all conf_namespace (globals st))
                                     (imports st))).

Lemma conf_py_evaluated (st : interp) : evaluated st (conf_py st).
Proof.
  unfold conf_py. unfold bind at 1. rewrite lines_6_10.
  destruct (has_import st) eqn:Hi; [|now constructor].
  destruct (resolve (imports st) "os" (sys_modules st)) as [m1 ok1] eqn:E1.
  destruct ok1.
  - destruct (resolve (imports st) "sys" m1) as [m2 ok2] eqn:E2.
    assert (E : resolve_os_sys (imports st) (sys_modules st) = (m2, ok2))
      by (unfold resolve_os_sys; now rewrite E1).
    destruct ok2.
    + destruct (cwd st) as [d|] eqn:Ec.
      * rewrite settings_bind_all.
        change (bind_all conf_settings
                  (Dict.set "sys" (PyModule "sys")
                     (Dict.set "os" (PyModule "os") (globals st))))
          with (bind_all conf_namespace (globals st)).
        now apply Completed.
      * now apply NoCwd.
    + apply NoModule; [exact Hi | exact E |].
      intros k Hk. apply get_set_other. congruence.
  - apply NoModule; [exact Hi | | reflexivity].
    unfold resolve_os_sys. now rewrite E1.
Qed.

Lemma conf_py_inv (st st' : interp) :
  conf_py st = Returned tt st' ->
  exists mods d,
    has_import st = true /\
    resolve_os_sys (imports st) (sys_modules st) = (mods, true) /\
    cwd st = Some d /\
    st' = mkInterp (Some d) (python_src d :: sys_path st) mods
                   (bind_all conf_namespace (globals st)) (imports st).
Proof.
  destruct (conf_py_evaluated st) as [Hi | mods g Hi Hr Hg | mods Hi Hr Hc | mods d Hi Hr Hc];
    intros H; try discriminate H.
  apply (f_equal state_of) in H. cbn [state_of] in H. subst st'.
  now exists mods, d.
Qed.

Lemma conf_py_returns (st : interp) (mods : list string) (d : string) :
  has_import st = true ->
  resolve_os_sys (imports st) (sys_modules st) = (mods, true) ->
  cwd st = Some d ->
  conf_py st =
  Returned tt (mkInterp (Some d) (python_src d :: sys_path st) mods
                        (bind_all conf_namespace (globals st)) (imports st)).
Proof.
  intros Hi Hr Hc.
  destruct (conf_py_evaluated st) as [Hi' | ? ? _ Hr' | ? _ _ Hc' | mods' d' _ Hr' Hc'].
  - congruence.
  - congruence.
  - congruence.
  - rewrite Hr in Hr'. rewrite Hc in Hc'.
    injection Hr' as <-. injection Hc' as <-. reflexivity.
Qed.

(** Line 10's argument is relative, so [abspath] asks for the working
    directory. *)
Lemma abspath_python_src (e : env) (d : string) :
  env_cwd e = Some d ->
  os_path_abspath "../python/src" (fresh e) = Returned (python_src d) (fresh e).
Proof.
  intros E. unfold os_path_abspath.
  change (PosixPath.isabs "../python/src") with false. cbv iota.
  unfold bind, os_getcwd, fresh, ret. cbn [cwd]. rewrite E. reflexivity.
Qed.

(** A completed evaluation, inverted. *)
Lemma load_inv (e : env) (st : interp) :
  load e = Returned tt st ->
  exists d,
    env_cwd e = Some d /\
    st = mkInterp (Some d) (python_src d :: env_sys_path e)
                  (fst (resolve_os_sys (env_imports e) (env_sys_modules e)))
                  conf_namespace (env_imports e).
Proof.
  intros H. apply conf_py_inv in H.
  destruct H as (mods & d & _ & Hr & Hc & ->).
  exists d. split; [exact Hc|].
  cbn [fresh imports sys_modules sys_path globals] in *.
  now rewrite Hr.
Qed.

Lemma load_ready (e : env) (st : interp) :
  load e = Returned tt st ->
  has_builtin_import (env_imports e) = true /\
  snd (resolve_os_sys (env_imports e) (env_sys_modules e)) = true.
Proof.
  intros H. apply conf_py_inv in H.
  destruct H as (mods & d & Hi & Hr & _ & _).
  cbn [fresh imports sys_modules] in Hr. rewrite Hr.
  split; [exact Hi | reflexivity].
Qed.

Lemma load_globals (e : env) (st : interp) :
  load e = Returned tt st -> globals st = conf_namespace.
Proof.
  intros H. destruct (load_inv e st H) as (d & _ & ->). reflexivity.
Qed.

Lemma load_env0 : load env0 = Returned tt st0.
Proof. vm_compute. reflexivity. Qed.

Lemma load_env1 : load env1 = Returned tt st1.
Proof. vm_compute. reflexivity. Qed.

Ltac loaded H :=
  let d := fresh "d" in
  let E := fresh "Ecwd" in
  apply load_inv in H; destruct H as (d & E & ->).

Example config_keys_count : length (config_keys st0) = 38%nat.
Proof. vm_compute. reflexivity. Qed.

(** The prepended directory follows the working directory. *)
Example python_src_of_docs :
  python_src "/home/ci/agentic-control/docs" = "/home/ci/agentic-control/python/src".
Proof. vm_compute. reflexivity. Qed.

Example python_src_of_other_docs :
  python_src "/srv/build/docs" = "/srv/build/python/src".
Proof. vm_compute. reflexivity. Qed.

(** The first import of [os] loads the modules [os] imports in turn. *)
Example bare_interpreter_loads_os :
  sys_modules st_bare =
  ["sys"; "builtins"; "os"; "stat"; "_stat"; "_collections_abc";
   "posixpath"; "genericpath"; "os.path"].
Proof. vm_compute. reflexivity. Qed.

(** Without [__import__], line 6 raises [ImportError]; with [os] out of
    reach, [ModuleNotFoundError]. *)
Example load_without_import :
  load env_no_import = Raised ImportError (fresh env_no_import).
Proof. vm_compute. reflexivity. Qed.

Example load_with_os_blocked :
  load env_os_blocked = Raised ModuleNotFoundError (fresh env_os_blocked).
Proof. vm_compute. reflexivity. Qed.

(** ** Effects on the interpreter *)

(** Claim C1, as stated: after the module is loaded nothing outside the
    configuration table has changed.  It fails: line 10 has prepended a
    directory to [sys.path]. *)
Lemma load_mutates_sys_path :
  ~ (forall e st, load e = Returned tt st ->
       cwd st = env_cwd e /\
       sys_path st = env_sys_path e /\
       sys_modules st = env_sys_modules e).
Proof.
  intros H. destruct (H env0 st0 load_env0) as (_ & Hp & _).
  vm_compute in Hp. discriminate Hp.
Qed.

(** Claim C1, amended: a completed evaluation is straight-line: it binds
    the names [os] and [sys] and the thirty-eight configuration keys in
    the module's namespace; outside the namespace it changes [sys.path],
    which gains at index 0 the directory [os.path.abspath("../python/src")]
    and keeps its former entries behind it, and [sys.modules], which keeps
    its entries and gains the modules that importing [os] and [sys] loads
    (none when both are already loaded); the working directory is left as
    it was. *)
Theorem load_frame (e : env) (st : interp) :
  load e = Returned tt st ->
  globals st = conf_namespace /\
  Dict.keys (globals st) = "os" :: "sys" :: Dict.keys conf_settings /\
  config_keys st = Dict.keys conf_settings /\
  List.length (config_keys st) = 38%nat /\
  cwd st = env_cwd e /\
  (exists p, os_path_abspath "../python/src" (fresh e) = Returned p (fresh e) /\
             sys_path st = p :: env_sys_path e) /\
  (exists added, sys_modules st = (env_sys_modules e ++ added)%list) /\
  existsb (String.eqb "os") (sys_modules st) = true /\
  existsb (String.eqb "sys") (sys_modules st) = true /\
  (existsb (String.eqb "os") (env_sys_modules e) = true ->
   existsb (String.eqb "sys") (env_sys_modules e) = true ->
   sys_modules st = env_sys_modules e).
Proof.
  intros H. destruct (load_ready e st H) as (_ & Hok). loaded H.
  cbn [globals cwd sys_path sys_modules].
  split; [reflexivity|].
  split; [vm_compute; reflexivity|].
  split; [vm_compute; reflexivity|].
  split; [vm_compute; reflexivity|].
  split; [now rewrite Ecwd|].
  split.
  { exists (python_src d). split; [|reflexivity].
    apply abspath_python_src, Ecwd. }
  split; [apply resolve_os_sys_extends|].
  destruct (resolve_os_sys (env_imports e) (env_sys_modules e))
    as [mods ok] eqn:Hr.
  cbn [snd] in Hok. subst ok. cbn [fst].
  destruct (resolve_os_sys_loaded _ _ _ Hr) as (Hos & Hsys).
  split; [exact Hos|]. split; [exact Hsys|].
  intros Hos0 Hsys0.
  rewrite (resolve_os_sys_present _ _ Hos0 Hsys0) in Hr.
  now injection Hr as <-.
Qed.

Lemma load_frame_witness :
  load env_bare = Returned tt st_bare /\
  Dict.get "release" (globals st_bare) = Some (PyStr "1.1.0") /\
  List.length (config_keys st_bare) = 38%nat /\
  sys_path st_bare =
  "/home/ci/agentic-control/python/src" :: env_sys_path env_bare /\
  sys_modules st_bare =
  (env_sys_modules env_bare ++
   ["os"; "stat"; "_stat"; "_collections_abc"; "posixpath"; "genericpath";
    "os.path"])%list.
Proof.
  assert (H : load env_bare = Returned tt st_bare) by (vm_compute; reflexivity).
  destruct (load_frame env_bare st_bare H) as (Hg & _ & _ & Hn & _).
  split; [exact H|].
  split; [rewrite Hg; vm_compute; reflexivity|].
  split; [exact Hn|].
  split; vm_compute; reflexivity.
Defined.

(** ** The keys the module declares *)

(** Claim C2, as stated: every configuration key the module declares is
    listed in the table of section 6.  It fails on [html_short_title]. *)
Lemma html_short_title_not_listed :
  ~ (forall e st k, load e = Returned tt st ->
       In k (config_keys st) -> spec_lists k = true).
Proof.
  intros H.
  specialize (H env0 st0 "html_short_title" load_env0).
  assert (Hin : In "html_short_title" (config_keys st0)).
  { vm_compute. repeat (try (left; reflexivity); right). }
  specialize (H Hin). vm_compute in H. discriminate H.
Qed.

(** Claim C2, amended: every configuration key the module declares, other
    than [html_short_title], is listed in the table of section 6 (the
    [napoleon_] keys through the row [napoleon_*]). *)
Theorem declared_keys_listed (e : env) (st : interp) (k : string) :
  load e = Returned tt st ->
  In k (config_keys st) ->
  k <> "html_short_title" ->
  spec_lists k = true.
Proof.
  intros H Hin Hne. loaded H.
  unfold config_keys in Hin. cbn [globals] in Hin.
  vm_compute in Hin.
  repeat (destruct Hin as [<- | Hin];
          [first [reflexivity | exfalso; apply Hne; reflexivity] |]).
  destruct Hin.
Qed.

Lemma declared_keys_listed_witness :
  load env0 = Returned tt st0 /\
  In "napoleon_use_ivar" (config_keys st0) /\
  "napoleon_use_ivar" <> "html_short_title" /\
  spec_lists "napoleon_use_ivar" = true.
Proof.
  assert (H : load env0 = Returned tt st0) by (vm_compute; reflexivity).
  assert (Hin : In "napoleon_use_ivar" (config_keys st0)).
  { vm_compute. repeat (try (left; reflexivity); right). }
  assert (Hne : "napoleon_use_ivar" <> "html_short_title") by discriminate.
  split; [exact H|]. split; [exact Hin|]. split; [exact Hne|].
  exact (declared_keys_listed env0 st0 "napoleon_use_ivar" H Hin Hne).
Defined.

(** ** The shape of the settings *)

(** Claim C3, as stated: theme options, autodoc defaults and napoleon
    toggles are each one dictionary-valued setting.  It fails on the
    napoleon toggles: no setting of that group is a dictionary. *)
Lemma napoleon_is_not_a_mapping :
  ~ (forall e st, load e = Returned tt st ->
       one_flat_mapping "html_theme_options" st /\
       one_flat_mapping "autodoc_default_options" st /\
       one_flat_mapping "napoleon" st).
Proof.
  intros H. destruct (H env0 st0 load_env0) as (_ & _ & (k & d & Hd & _)).
  vm_compute in Hd. discriminate Hd.
Qed.

(** Claim C3, amended: the theme options and the autodoc defaults are each
    one dictionary-valued setting ([html_theme_options],
    [autodoc_default_options]) whose values are scalars; the napoleon
    toggles are thirteen separate top-level boolean settings named
    [napoleon_...], none of them a dictionary. *)
Theorem option_groups (e : env) (st : interp) :
  load e = Returned tt st ->
  one_flat_mapping "html_theme_options" st /\
  one_flat_mapping "autodoc_default_options" st /\
  group_mappings "napoleon" st = [] /\
  length (group_settings "napoleon_" st) = 13 /\
  group_settings "napoleon_" st = group_settings "napoleon" st /\
  forallb is_bool (Dict.values (group_settings "napoleon_" st)) = true.
Proof.
  intros H. loaded H.
  unfold one_flat_mapping, group_mappings, group_settings. cbn [globals].
  split; [|split].
  - eexists _, _. split; vm_compute; reflexivity.
  - eexists _, _. split; vm_compute; reflexivity.
  - repeat (split; [vm_compute; reflexivity|]). vm_compute; reflexivity.
Qed.

Lemma option_groups_witness :
  load env0 = Returned tt st0 /\
  one_flat_mapping "html_theme_options" st0 /\
  length (group_settings "napoleon_" st0) = 13.
Proof.
  assert (H : load env0 = Returned tt st0) by (vm_compute; reflexivity).
  destruct (option_groups env0 st0 H) as (Ht & _ & _ & Hn & _).
  split; [exact H|]. split; [exact Ht|exact Hn].
Defined.

(** Claim C4: [source_suffix] is the mapping with exactly the two entries
    [".rst"] to ["restructuredtext"] and [".md"] to ["markdown"]. *)
Theorem source_suffix_mapping (e : env) (st : interp) :
  load e = Returned tt st ->
  Dict.get "source_suffix" (globals st) =
  Some (PyDict [(".rst", PyStr "restructuredtext"); (".md", PyStr "markdown")]).
Proof.
  intros H. loaded H. cbn [globals]. vm_compute. reflexivity.
Qed.

Lemma source_suffix_mapping_witness :
  load env0 = Returned tt st0 /\
  Dict.get "source_suffix" (globals st0) =
  Some (PyDict [(".rst", PyStr "restructuredtext"); (".md", PyStr "markdown")]).
Proof.
  assert (H : load env0 = Returned tt st0) by (vm_compute; reflexivity).
  split; [exact H|]. exact (source_suffix_mapping env0 st0 H).
Defined.

(** Claim C5: [intersphinx_mapping] is a mapping from the project name
    [python] to the pair of the documentation URL
    [https://docs.python.org/3] and the inventory [None], and the value
    under each of its keys is a two-element tuple of a documentation URL
    (an [https] address) and an inventory value. *)
Theorem intersphinx_mapping_pairs (e : env) (st : interp) :
  load e = Returned tt st ->
  exists d,
    Dict.get "intersphinx_mapping" (globals st) = Some (PyDict d) /\
    Dict.get "python" d =
    Some (PyTuple [PyStr "https://docs.python.org/3"; PyNone]) /\
    forall k v, In (k, v) d ->
      is_url_inventory_pair v = true /\
      exists url inv,
        v = PyTuple [PyStr url; inv] /\ is_https_url url = true.
Proof.
  intros H. loaded H. cbn [globals].
  exists [("python", PyTuple [PyStr "https://docs.python.org/3"; PyNone])].
  split; [vm_compute; reflexivity|].
  split; [vm_compute; reflexivity|].
  intros k v [Hkv | []].
  assert (Hv : v = PyTuple [PyStr "https://docs.python.org/3"; PyNone])
    by congruence.
  subst v. split; [reflexivity|].
  exists "https://docs.python.org/3", PyNone.
  split; [reflexivity | vm_compute; reflexivity].
Qed.

Lemma intersphinx_mapping_pairs_witness :
  load env0 = Returned tt st0 /\
  exists d,
    Dict.get "intersphinx_mapping" (globals st0) = Some (PyDict d) /\
    Dict.get "python" d =
    Some (PyTuple [PyStr "https://docs.python.org/3"; PyNone]) /\
    forall k v, In (k, v) d ->
      is_url_inventory_pair v = true /\
      exists url inv,
        v = PyTuple [PyStr url; inv] /\ is_https_url url = true.
Proof.
  assert (H : load env0 = Returned tt st0) by (vm_compute; reflexivity).
  split; [exact H|]. exact (intersphinx_mapping_pairs env0 st0 H).
Defined.

(** Claim C6: [project], [html_theme] and [release] are bound to strings,
    and [project] is ["agentic-control"]. *)
Theorem scalar_string_settings (e : env) (st : interp) :
  load e = Returned tt st ->
  Dict.get "project" (globals st) = Some (PyStr "agentic-control") /\
  (exists theme, Dict.get "html_theme" (globals st) = Some (PyStr theme)) /\
  (exists version, Dict.get "release" (globals st) = Some (PyStr version)).
Proof.
  intros H. loaded H. cbn [globals].
  split; [vm_compute; reflexivity|].
  split; eexists; vm_compute; reflexivity.
Qed.

Lemma scalar_string_settings_witness :
  load env0 = Returned tt st0 /\
  Dict.get "project" (globals st0) = Some (PyStr "agentic-control") /\
  Dict.get "html_theme" (globals st0) = Some (PyStr "sphinx_rtd_theme") /\
  Dict.get "release" (globals st0) = Some (PyStr "1.1.0").
Proof.
  assert (H : load env0 = Returned tt st0) by (vm_compute; reflexivity).
  destruct (scalar_string_settings env0 st0 H) as (Hp & _ & _).
  split; [exact H|]. split; [exact Hp|].
  split; vm_compute; reflexivity.
Defined.

(** Claim C7: [extensions], [templates_path], [exclude_patterns] and
    [html_static_path] are lists all of whose elements are strings. *)
Theorem sequence_settings_hold_strings (e : env) (st : interp) (k : string) :
  load e = Returned tt st ->
  In k ["extensions"; "templates_path"; "exclude_patterns"; "html_static_path"] ->
  exists xs,
    Dict.get k (globals st) = Some (PyList xs) /\
    Forall (fun x => exists t, x = PyStr t) xs.
Proof.
  intros H Hin. loaded H. cbn [globals].
  assert (Hall : forall names : list string,
             Forall (fun x => exists t, x = PyStr t) (map PyStr names)).
  { intros names. apply Forall_forall. intros x Hx.
    apply in_map_iff in Hx. destruct Hx as (t & <- & _). now exists t. }
  destruct Hin as [<- | [<- | [<- | [<- | []]]]].
  - exists (map PyStr ["sphinx.ext.autodoc"; "sphinx.ext.autosummary";
                       "sphinx.ext.napoleon"; "sphinx.ext.viewcode";
                       "sphinx.ext.intersphinx"; "sphinx_autodoc_typehints";
                       "sphinx_js"; "myst_parser"; "sphinxcontrib.mermaid"]).
    split; [vm_compute; reflexivity | apply Hall].
  - exists (map PyStr ["_templates"]).
    split; [vm_compute; reflexivity | apply Hall].
  - exists (map PyStr ["_build"; "Thumbs.db"; ".DS_Store"]).
    split; [vm_compute; reflexivity | apply Hall].
  - exists (map PyStr ["_static"]).
    split; [vm_compute; reflexivity | apply Hall].
Qed.

Lemma sequence_settings_hold_strings_witness :
  load env0 = Returned tt st0 /\
  In "exclude_patterns"
     ["extensions"; "templates_path"; "exclude_patterns"; "html_static_path"] /\
  exists xs,
    Dict.get "exclude_patterns" (globals st0) = Some (PyList xs) /\
    Forall (fun x => exists t, x = PyStr t) xs.
Proof.
  assert (H : load env0 = Returned tt st0) by (vm_compute; reflexivity).
  assert (Hin : In "exclude_patterns"
                   ["extensions"; "templates_path"; "exclude_patterns";
                    "html_static_path"]).
  { simpl. right; right; left; reflexivity. }
  split; [exact H|]. split; [exact Hin|].
  exact (sequence_settings_hold_strings env0 st0 "exclude_patterns" H Hin).
Defined.

(** ** Errors *)

(** Claim C8, as stated: loading succeeds in every environment.  It fails
    where the working directory cannot be resolved: [os.getcwd()], called
    by [os.path.abspath] on line 10, raises. *)
Lemma load_raises_without_cwd :
  ~ (forall e, exists st, load e = Returned tt st).
Proof.
  intros H. destruct (H env_gone) as (st & Hst).
  vm_compute in Hst. discriminate Hst.
Qed.

(** Claim C8, amended: the module has no error handling of its own, and
    loading it does not always succeed.  An exception raised on lines 6-10
    ([ImportError] when the import statement finds no [__import__],
    [ModuleNotFoundError] when [os] or [sys] cannot be imported,
    [FileNotFoundError] when [os.path.abspath] cannot resolve the working
    directory) leaves the module unhandled, before any configuration key
    is bound.  Once lines 6-10 have completed, the assignments of lines
    15-127 complete and bind every configuration key. *)
Theorem load_outcome (e : env) :
  (forall x st, load e = Raised x st ->
     add_python_source_to_path (fresh e) = Raised x st /\
     config_keys st = []) /\
  (forall mid, add_python_source_to_path (fresh e) = Returned tt mid ->
     exists st, load e = Returned tt st /\ globals st = conf_namespace) /\
  (has_builtin_import (env_imports e) = false ->
     exists st, load e = Raised ImportError st) /\
  (has_builtin_import (env_imports e) = true ->
   snd (resolve_os_sys (env_imports e) (env_sys_modules e)) = false ->
     exists st, load e = Raised ModuleNotFoundError st) /\
  (has_builtin_import (env_imports e) = true ->
   snd (resolve_os_sys (env_imports e) (env_sys_modules e)) = true ->
   env_cwd e = None ->
     exists st, load e = Raised FileNotFoundError st).
Proof.
  assert (Hfresh : has_import (fresh e) = has_builtin_import (env_imports e))
    by reflexivity.
  unfold load.
  split; [|split; [|split; [|split]]].
  - intros x st H. rewrite conf_py_split in H.
    destruct (add_python_source_to_path (fresh e)) as [[] mid | x' st'] eqn:L.
    { exfalso. destruct mid as [c p m g i].
      rewrite settings_bind_all in H. discriminate H. }
    assert (Hx : x' = x) by congruence.
    assert (Hst : st' = st) by congruence.
    subst x' st'. split; [reflexivity|].
    rewrite lines_6_10 in L.
    destruct (has_import (fresh e));
      [| apply (f_equal state_of) in L; cbn [state_of] in L; now subst st].
    destruct (resolve (imports (fresh e)) "os" (sys_modules (fresh e)))
      as [m1 ok1].
    destruct ok1;
      [| apply (f_equal state_of) in L; cbn [state_of] in L; now subst st].
    destruct (resolve (imports (fresh e)) "sys" m1) as [m2 ok2].
    destruct ok2;
      [| apply (f_equal state_of) in L; cbn [state_of] in L; now subst st].
    destruct (cwd (fresh e)); [discriminate L|].
    apply (f_equal state_of) in L; cbn [state_of] in L; now subst st.
  - intros mid L. rewrite conf_py_split, L.
    rewrite lines_6_10 in L.
    destruct (has_import (fresh e)); [|discriminate L].
    destruct (resolve (imports (fresh e)) "os" (sys_modules (fresh e)))
      as [m1 ok1].
    destruct ok1; [|discriminate L].
    destruct (resolve (imports (fresh e)) "sys" m1) as [m2 ok2].
    destruct ok2; [|discriminate L].
    destruct (cwd (fresh e)); [|discriminate L].
    apply (f_equal state_of) in L; cbn [state_of] in L. subst mid.
    rewrite settings_bind_all. eexists. split; [reflexivity|].
    reflexivity.
  - intros Hb. rewrite <- Hfresh in Hb.
    destruct (conf_py_evaluated (fresh e))
      as [Hi | mods g Hi Hr Hg | mods Hi Hr Hc | mods d Hi Hr Hc];
      try congruence.
    eexists. reflexivity.
  - intros Hb Hr0. rewrite <- Hfresh in Hb.
    change (env_imports e) with (imports (fresh e)) in Hr0.
    change (env_sys_modules e) with (sys_modules (fresh e)) in Hr0.
    destruct (conf_py_evaluated (fresh e))
      as [Hi | mods g Hi Hr Hg | mods Hi Hr Hc | mods d Hi Hr Hc];
      try (rewrite Hr in Hr0; discriminate Hr0); try congruence.
    eexists. reflexivity.
  - intros Hb Hr0 Hc0. rewrite <- Hfresh in Hb.
    change (env_cwd e) with (cwd (fresh e)) in Hc0.
    change (env_imports e) with (imports (fresh e)) in Hr0.
    change (env_sys_modules e) with (sys_modules (fresh e)) in Hr0.
    destruct (conf_py_evaluated (fresh e))
      as [Hi | mods g Hi Hr Hg | mods Hi Hr Hc | mods d Hi Hr Hc];
      try (rewrite Hr in Hr0; discriminate Hr0); try congruence.
    eexists. reflexivity.
Qed.

Lemma load_outcome_witness :
  (exists st, load env_no_import = Raised ImportError st) /\
  (exists st, load env_os_blocked = Raised ModuleNotFoundError st) /\
  (exists st, load env_gone = Raised FileNotFoundError st) /\
  (exists st, load env0 = Returned tt st /\ globals st = conf_namespace).
Proof.
  split; [|split; [|split]].
  - destruct (load_outcome env_no_import) as (_ & _ & Hi & _).
    apply Hi. vm_compute. reflexivity.
  - destruct (load_outcome env_os_blocked) as (_ & _ & _ & Hm & _).
    apply Hm; vm_compute; reflexivity.
  - destruct (load_outcome env_gone) as (_ & _ & _ & _ & Hc).
    apply Hc; vm_compute; reflexivity.
  - destruct (load_outcome env0) as (_ & Hs & _).
    apply (Hs (mkInterp (Some "/home/ci/agentic-control/docs")
                        ("/home/ci/agentic-control/python/src"
                           :: env_sys_path env0)
                        (env_sys_modules env0)
                        [("os", PyModule "os"); ("sys", PyModule "sys")]
                        cpython)).
    vm_compute. reflexivity.
Defined.

(** ** Determinism *)

(** Claim C9, as stated: in any two evaluations every configuration key
    is bound to the same value.  It fails between an evaluation that
    completes and one that raises on line 10: the second binds no key. *)
Lemma bindings_depend_on_completion :
  ~ (forall e1 e2 k,
       In k (Dict.keys conf_settings) ->
       Dict.get k (globals (state_of (load e1))) =
       Dict.get k (globals (state_of (load e2)))).
Proof.
  intros H.
  assert (Hin : In "project" (Dict.keys conf_settings))
    by (vm_compute; left; reflexivity).
  specialize (H env0 env_gone "project" Hin).
  vm_compute in H. discriminate H.
Qed.

(** Claim C9, amended: any two evaluations that complete leave the same
    namespace, the table of lines 6-127, so each configuration key is bound
    to the same constant in both.  What depends on the environment is
    whether the evaluation completes, the entry prepended at index 0 of
    [sys.path], which is [os.path.abspath("../python/src")] computed from
    the working directory, and the modules that importing [os] and [sys]
    adds to [sys.modules]. *)
Theorem load_deterministic (e1 e2 : env) (sa sb : interp) :
  load e1 = Returned tt sa ->
  load e2 = Returned tt sb ->
  globals sa = conf_namespace /\
  globals sb = conf_namespace /\
  (forall k, In k (Dict.keys conf_settings) ->
     exists v, Dict.get k (globals sa) = Some v /\
               Dict.get k (globals sb) = Some v) /\
  (exists pa pb,
     os_path_abspath "../python/src" (fresh e1) = Returned pa (fresh e1) /\
     os_path_abspath "../python/src" (fresh e2) = Returned pb (fresh e2) /\
     sa = mkInterp (env_cwd e1) (pa :: env_sys_path e1)
                   (fst (resolve_os_sys (env_imports e1) (env_sys_modules e1)))
                   conf_namespace (env_imports e1) /\
     sb = mkInterp (env_cwd e2) (pb :: env_sys_path e2)
                   (fst (resolve_os_sys (env_imports e2) (env_sys_modules e2)))
                   conf_namespace (env_imports e2)).
Proof.
  intros Ha Hb.
  apply load_inv in Ha. destruct Ha as (da & Ea & ->).
  apply load_inv in Hb. destruct Hb as (db & Eb & ->).
  cbn [globals].
  split; [reflexivity|]. split; [reflexivity|]. split.
  - intros k Hk.
    destruct (Dict.get k conf_namespace) as [v|] eqn:G.
    + exists v. auto.
    + exfalso. vm_compute in Hk.
      repeat (destruct Hk as [<- | Hk]; [vm_compute in G; discriminate G|]).
      destruct Hk.
  - exists (python_src da), (python_src db).
    rewrite Ea, Eb.
    split; [apply abspath_python_src, Ea|].
    split; [apply abspath_python_src, Eb|].
    split; reflexivity.
Qed.

Lemma load_deterministic_witness :
  load env1 = Returned tt st1 /\
  load env_bare = Returned tt st_bare /\
  globals st1 = globals st_bare /\
  Dict.get "html_theme" (globals st1) = Some (PyStr "sphinx_rtd_theme") /\
  sys_path st1 = "/srv/build/python/src" :: env_sys_path env1 /\
  sys_path st_bare =
  "/home/ci/agentic-control/python/src" :: env_sys_path env_bare /\
  sys_modules st1 = env_sys_modules env1 /\
  sys_modules st_bare <> env_sys_modules env_bare.
Proof.
  assert (H1 : load env1 = Returned tt st1) by (vm_compute; reflexivity).
  assert (Hb : load env_bare = Returned tt st_bare) by (vm_compute; reflexivity).
  destruct (load_deterministic env1 env_bare st1 st_bare H1 Hb)
    as (Hg1 & Hgb & _ & _).
  split; [exact H1|]. split; [exact Hb|].
  split; [now rewrite Hg1, Hgb|].
  split; [rewrite Hg1; vm_compute; reflexivity|].
  split; [vm_compute; reflexivity|].
  split; [vm_compute; reflexivity|].
  split; [vm_compute; reflexivity|].
  vm_compute. discriminate.
Defined.

(** ** Numeric settings *)

(** Claim C10: the [navigation_depth] entry of [html_theme_options] is the
    integer 4, and [myst_heading_anchors] is the integer 3, not a boolean. *)
Theorem numeric_limits (e : env) (st : interp) :
  load e = Returned tt st ->
  (exists d, Dict.get "html_theme_options" (globals st) = Some (PyDict d) /\
             Dict.get "navigation_depth" d = Some (PyInt 4)) /\
  Dict.get "myst_heading_anchors" (globals st) = Some (PyInt 3) /\
  (forall b, Dict.get "myst_heading_anchors" (globals st) <> Some (PyBool b)).
Proof.
  intros H. loaded H. cbn [globals].
  split.
  - eexists. split; vm_compute; reflexivity.
  - split; [vm_compute; reflexivity|].
    intros b Hb. vm_compute in Hb. discriminate Hb.
Qed.

Lemma numeric_limits_witness :
  load env0 = Returned tt st0 /\
  Dict.get "myst_heading_anchors" (globals st0) = Some (PyInt 3).
Proof.
  assert (H : load env0 = Returned tt st0) by (vm_compute; reflexivity).
  destruct (numeric_limits env0 st0 H) as (_ & Hm & _).
  split; [exact H | exact Hm].
Defined.


(** * Beyond the configuration table *)

(** ** The module body in any interpreter state *)

Lemma get_bind_conf_namespace (g : Dict.t) (k : string) :
  Dict.get k (bind_all conf_namespace g) =
  match Dict.get k conf_namespace with
  | Some v => Some v
  | None => Dict.get k g
  end.
Proof.
  rewrite get_bind_all, get_rev_nodup; [reflexivity|].
  apply conf_namespace_nodup.
Qed.

(** Once the module's names are bound to the module's values, binding
    them again is no change. *)
Lemma bind_all_settled (bs d : Dict.t) :
  (forall k v, In (k, v) bs -> Dict.get k d = Some v) ->
  bind_all bs d = d.
Proof.
  induction bs as [|[k v] bs IH]; intros H; [reflexivity|].
  unfold bind_all in *. simpl.
  rewrite (set_present k v d); [|apply H; now left].
  apply IH. intros k' v' Hin. apply H. now right.
Qed.

Lemma bind_conf_namespace_twice (g : Dict.t) :
  bind_all conf_namespace (bind_all conf_namespace g) =
  bind_all conf_namespace g.
Proof.
  apply bind_all_settled. intros k v Hin.
  rewrite get_bind_conf_namespace.
  now rewrite (in_get_nodup k v conf_namespace conf_namespace_nodup Hin).
Qed.

(** X1: when the module body completes in an interpreter whose namespace
    already holds names, each name the module binds has the module's value
    afterwards, whatever it was bound to before, and every other name has
    the value it had. *)
Theorem eval_merges_namespace (st st' : interp) (k : string) :
  conf_py st = Returned tt st' ->
  Dict.get k (globals st') =
  match Dict.get k conf_namespace with
  | Some v => Some v
  | None => Dict.get k (globals st)
  end.
Proof.
  intros H. apply conf_py_inv in H.
  destruct H as (mods & d & _ & _ & _ & ->).
  cbn [globals]. apply get_bind_conf_namespace.
Qed.

Lemma eval_merges_namespace_witness :
  exists st',
    conf_py st_prepared = Returned tt st' /\
    Dict.get "tags" (globals st') = Some PyNone /\
    Dict.get "project" (globals st') = Some (PyStr "agentic-control").
Proof.
  exists (state_of (conf_py st_prepared)).
  assert (H : conf_py st_prepared = Returned tt (state_of (conf_py st_prepared)))
    by (vm_compute; reflexivity).
  split; [exact H|].
  split.
  - exact (eval_merges_namespace st_prepared _ "tags" H).
  - exact (eval_merges_namespace st_prepared _ "project" H).
Defined.

(** X2: evaluating the module a second time in the same interpreter
    leaves the namespace and the loaded modules as the first evaluation
    left them, and puts the directory in front of [sys.path] a second
    time: line 10 does not look whether it is already there. *)
Theorem second_evaluation_prepends_again (st sa : interp) (d : string) :
  cwd st = Some d ->
  conf_py st = Returned tt sa ->
  exists sb,
    conf_py sa = Returned tt sb /\
    globals sb = globals sa /\
    sys_modules sb = sys_modules sa /\
    sys_path sa = python_src d :: sys_path st /\
    sys_path sb = python_src d :: python_src d :: sys_path st.
Proof.
  intros E H. apply conf_py_inv in H.
  destruct H as (mods & d' & Hi & Hr & Hc & ->).
  assert (d' = d) by congruence. subst d'.
  destruct (resolve_os_sys_loaded _ _ _ Hr) as (Hos & Hsys).
  eexists. split.
  - apply (conf_py_returns _ mods d).
    + rewrite <- Hi. apply has_import_frame; [|reflexivity].
      cbn [globals]. rewrite get_bind_conf_namespace. reflexivity.
    + cbn [imports sys_modules]. now apply resolve_os_sys_present.
    + reflexivity.
  - cbn [globals sys_modules sys_path].
    split; [apply bind_conf_namespace_twice|].
    split; [reflexivity|].
    split; reflexivity.
Qed.

Lemma second_evaluation_prepends_again_witness :
  cwd st_prepared = Some "/home/ci/agentic-control/docs" /\
  exists sa sb,
    conf_py st_prepared = Returned tt sa /\
    conf_py sa = Returned tt sb /\
    globals sb = globals sa /\
    sys_path sb = ["/home/ci/agentic-control/python/src";
                   "/home/ci/agentic-control/python/src";
                   "/usr/lib/python3.12"].
Proof.
  assert (E : cwd st_prepared = Some "/home/ci/agentic-control/docs")
    by reflexivity.
  assert (H : conf_py st_prepared = Returned tt (state_of (conf_py st_prepared)))
    by (vm_compute; reflexivity).
  split; [exact E|].
  destruct (second_evaluation_prepends_again st_prepared _ _ E H)
    as (sb & Hb & Hg & _ & _ & Hp).
  exists (state_of (conf_py st_prepared)), sb.
  split; [exact H|]. split; [exact Hb|]. split; [exact Hg|].
  rewrite Hp. vm_compute. reflexivity.
Defined.



(** ** The directory put on [sys.path] *)

Lemma str_app_assoc (a b c : string) : (a ++ b) ++ c = a ++ (b ++ c).
Proof. induction a as [|x a IH]; simpl; congruence. Qed.

Lemma str_app_nonempty (a b : string) : b <> EmptyString -> a ++ b <> EmptyString.
Proof. destruct a; simpl; [auto | discriminate]. Qed.

Lemma split_not_nil (s : string) : PosixPath.split s <> [].
Proof.
  induction s as [|c s IH]; simpl; [discriminate|].
  destruct (Ascii.eqb c "/"); [discriminate|].
  destruct (PosixPath.split s); discriminate.
Qed.

(** Splitting at a separator splits the component lists. *)
Lemma split_app (a b : string) :
  PosixPath.split (a ++ String "/" b) =
  (PosixPath.split a ++ PosixPath.split b)%list.
Proof.
  induction a as [|c a IH]; simpl; [reflexivity|].
  rewrite IH. destruct (Ascii.eqb c "/"); [reflexivity|].
  destruct (PosixPath.split a) eqn:E; [|reflexivity].
  exfalso. apply (split_not_nil a E).
Qed.

Lemma endswith_sep_inv (d : string) :
  PosixPath.endswith_sep d = true -> exists d', d = d' ++ "/".
Proof.
  induction d as [|c d IH]; [discriminate|].
  destruct d as [|c' d].
  - simpl. intros H. apply Ascii.eqb_eq in H. subst c.
    exists EmptyString. reflexivity.
  - intros H. change (PosixPath.endswith_sep (String c' d) = true) in H.
    destruct (IH H) as (d' & E). exists (String c d'). simpl. now rewrite E.
Qed.

Lemma step_empty (n : nat) (X : list string) :
  PosixPath.normpath_step n X EmptyString = X.
Proof. reflexivity. Qed.

(** The components of the joined path are those of the working directory
    followed by [..], [python], [src]. *)
Lemma fold_split_join (d : string) (n : nat) :
  fold_left (PosixPath.normpath_step n)
            (PosixPath.split (PosixPath.join d "../python/src")) [] =
  fold_left (PosixPath.normpath_step n) [".."; "python"; "src"]
            (fold_left (PosixPath.normpath_step n) (PosixPath.split d) []).
Proof.
  unfold PosixPath.join.
  change (PosixPath.startswith "../python/src" PosixPath.sep) with false.
  cbn [orb].
  destruct (String.eqb_spec d EmptyString) as [->|Hd]; [reflexivity|].
  destruct (PosixPath.endswith_sep d) eqn:E.
  - destruct (endswith_sep_inv d E) as (d' & ->).
    rewrite str_app_assoc.
    change ("/" ++ "../python/src") with (String "/" "../python/src").
    change (d' ++ "/") with (d' ++ String "/" EmptyString).
    rewrite !split_app, !fold_left_app. reflexivity.
  - change (PosixPath.sep ++ "../python/src") with (String "/" "../python/src").
    rewrite split_app, fold_left_app. reflexivity.
Qed.

Lemma fold_python_src (n : nat) (X : list string) :
  fold_left (PosixPath.normpath_step n) [".."; "python"; "src"] X =
  (PosixPath.normpath_step n X ".." ++ ["python"; "src"])%list.
Proof.
  cbn [fold_left]. generalize (PosixPath.normpath_step n X ".."). intros Y.
  change (PosixPath.normpath_step n Y "python") with (Y ++ ["python"])%list.
  change (PosixPath.normpath_step n (Y ++ ["python"]) "src")
    with ((Y ++ ["python"]) ++ ["src"])%list.
  now rewrite <- app_assoc.
Qed.

Lemma concat_cons (x : string) (l : list string) :
  l <> [] -> String.concat "/" (x :: l) = x ++ "/" ++ String.concat "/" l.
Proof. destruct l; [congruence | reflexivity]. Qed.

Lemma concat_ends (Y : list string) (a b : string) :
  exists pre, String.concat "/" (Y ++ [a; b]) = pre ++ a ++ "/" ++ b.
Proof.
  induction Y as [|y Y (pre & IH)].
  - exists EmptyString. reflexivity.
  - exists (y ++ "/" ++ pre).
    change ((y :: Y) ++ [a; b])%list with (y :: (Y ++ [a; b]))%list.
    rewrite concat_cons, IH.
    + now rewrite !str_app_assoc.
    + destruct Y; discriminate.
Qed.

Lemma join_nonempty (d : string) :
  PosixPath.join d "../python/src" <> EmptyString.
Proof.
  unfold PosixPath.join.
  change (PosixPath.startswith "../python/src" PosixPath.sep) with false.
  cbn [orb].
  destruct (String.eqb d EmptyString); [discriminate|].
  destruct (PosixPath.endswith_sep d); apply str_app_nonempty; discriminate.
Qed.

Lemma startswith_sep_cons (c : ascii) (d : string) :
  PosixPath.startswith (String c d) PosixPath.sep = true -> c = "/"%char.
Proof.
  unfold PosixPath.startswith, PosixPath.sep. cbn [String.prefix].
  destruct (ascii_dec "/" c); [auto | discriminate].
Qed.

Lemma startswith_sep_app (d x : string) :
  PosixPath.startswith (String "/" d ++ x) PosixPath.sep = true.
Proof.
  unfold PosixPath.startswith, PosixPath.sep. cbn [String.append String.prefix].
  destruct (ascii_dec "/" "/"); [|congruence].
  now destruct (d ++ x).
Qed.

Lemma startswith_two_seps (c : ascii) (rest x : string) :
  c <> "/"%char ->
  PosixPath.startswith (String "/" (String c rest) ++ x) "//" = false.
Proof.
  intros Hc. unfold PosixPath.startswith. cbn [String.append String.prefix].
  destruct (ascii_dec "/" "/"); [|reflexivity].
  destruct (ascii_dec "/" c); [congruence | reflexivity].
Qed.

(** What line 10 computes, with the count [n] of leading separators that
    [normpath] keeps. *)
Lemma python_src_shape (d : string) :
  exists n,
    python_src d =
    String.concat EmptyString (repeat "/" n) ++
    String.concat "/"
      (PosixPath.normpath_step n
         (fold_left (PosixPath.normpath_step n) (PosixPath.split d) []) ".."
       ++ ["python"; "src"])%list /\
    (PosixPath.isabs d = true -> n = 1 \/ n = 2)%nat /\
    (forall c rest, d = String "/" (String c rest) -> c <> "/"%char -> n = 1%nat).
Proof.
  unfold python_src, PosixPath.normpath.
  destruct (String.eqb_spec (PosixPath.join d "../python/src") EmptyString)
    as [E|_]; [now apply join_nonempty in E|].
  cbv zeta.
  set (n := if PosixPath.startswith (PosixPath.join d "../python/src") PosixPath.sep
            then if PosixPath.startswith (PosixPath.join d "../python/src") "//"
                    && negb (PosixPath.startswith (PosixPath.join d "../python/src") "///")
                 then 2%nat else 1%nat
            else 0%nat).
  exists n. split; [|split].
  - rewrite fold_split_join, fold_python_src.
    change PosixPath.sep with "/".
    match goal with |- (if String.eqb ?p EmptyString then _ else _) = _ =>
      destruct (String.eqb_spec p EmptyString) as [E|_]; [|reflexivity] end.
    exfalso. revert E.
    destruct (concat_ends
                (PosixPath.normpath_step n
                   (fold_left (PosixPath.normpath_step n) (PosixPath.split d) []) "..")
                "python" "src") as (pre & ->).
    apply str_app_nonempty, str_app_nonempty. discriminate.
  - intros Habs. destruct d as [|c d]; [discriminate|].
    apply startswith_sep_cons in Habs. subst c.
    subst n. unfold PosixPath.join.
    change (PosixPath.startswith "../python/src" PosixPath.sep) with false.
    cbn [orb]. change (String.eqb (String "/" d) EmptyString) with false. cbv iota.
    destruct (PosixPath.endswith_sep (String "/" d));
      rewrite startswith_sep_app;
      match goal with |- (if ?b then _ else _) = _ \/ _ => destruct b end; auto.
  - intros c rest -> Hc. subst n. unfold PosixPath.join.
    change (PosixPath.startswith "../python/src" PosixPath.sep) with false.
    cbn [orb]. change (String.eqb (String "/" (String c rest)) EmptyString) with false.
    cbv iota.
    destruct (PosixPath.endswith_sep (String "/" (String c rest)));
      rewrite startswith_sep_app, (startswith_two_seps c rest _ Hc); reflexivity.
Qed.

Lemma split_plain (w : string) :
  has_sep w = false -> PosixPath.split w = [w].
Proof.
  induction w as [|c w IH]; simpl; [reflexivity|].
  intros H. apply orb_false_iff in H. destruct H as (Hc & Hw).
  rewrite Hc, (IH Hw). reflexivity.
Qed.

Lemma plain_inv (c : string) :
  plain_component c = true ->
  c <> EmptyString /\ String.eqb c "." = false /\
  String.eqb c ".." = false /\ has_sep c = false.
Proof.
  unfold plain_component. intros H.
  repeat (apply andb_true_iff in H; destruct H as (H & ?)).
  repeat match goal with
         | X : negb _ = true |- _ => apply negb_true_iff in X
         end.
  repeat split; auto.
  now apply String.eqb_neq.
Qed.

Lemma split_concat (cs : list string) :
  cs <> [] ->
  forallb plain_component cs = true ->
  PosixPath.split (String.concat "/" cs) = cs.
Proof.
  induction cs as [|w cs IH]; [congruence|].
  intros _ H. cbn [forallb] in H. apply andb_true_iff in H.
  destruct H as (Hw & Hcs). apply plain_inv in Hw.
  destruct Hw as (_ & _ & _ & Hsep).
  destruct cs as [|w' cs].
  - simpl. now apply split_plain.
  - rewrite concat_cons by discriminate.
    change ("/" ++ String.concat "/" (w' :: cs))
      with (String "/" (String.concat "/" (w' :: cs))).
    rewrite split_app, (split_plain w Hsep), IH; [reflexivity | discriminate | exact Hcs].
Qed.

Lemma step_plain (n : nat) (acc : list string) (c : string) :
  plain_component c = true ->
  PosixPath.normpath_step n acc c = (acc ++ [c])%list.
Proof.
  intros H. apply plain_inv in H. destruct H as (Hne & Hdot & Hdd & _).
  apply String.eqb_neq in Hne.
  unfold PosixPath.normpath_step. rewrite Hne, Hdot, Hdd. reflexivity.
Qed.

Lemma fold_plain (n : nat) (cs acc : list string) :
  forallb plain_component cs = true ->
  fold_left (PosixPath.normpath_step n) cs acc = (acc ++ cs)%list.
Proof.
  revert acc. induction cs as [|c cs IH]; intros acc H; simpl.
  - now rewrite app_nil_r.
  - cbn [forallb] in H. apply andb_true_iff in H. destruct H as (Hc & Hcs).
    rewrite (step_plain n acc c Hc), (IH _ Hcs), <- app_assoc. reflexivity.
Qed.

(** Below the root, [..] removes the last component. *)
Lemma step_dotdot (comps : list string) (name : string) :
  plain_component name = true ->
  PosixPath.normpath_step 1 (comps ++ [name]) ".." = comps.
Proof.
  intros H. apply plain_inv in H. destruct H as (_ & _ & Hdd & _).
  unfold PosixPath.normpath_step.
  change (String.eqb ".." EmptyString || String.eqb ".." ".") with false.
  change (negb (String.eqb ".." "..")) with false.
  change (Nat.eqb 1 0) with false.
  rewrite last_last, Hdd, removelast_last.
  cbn [orb andb]. rewrite andb_false_r.
  now destruct comps.
Qed.

Lemma concat_plain_head (cs : list string) :
  cs <> [] ->
  forallb plain_component cs = true ->
  exists c rest, String.concat "/" cs = String c rest /\ c <> "/"%char.
Proof.
  destruct cs as [|w cs]; [congruence|]. intros _ H.
  cbn [forallb] in H. apply andb_true_iff in H. destruct H as (Hw & _).
  apply plain_inv in Hw. destruct Hw as (Hne & _ & _ & Hsep).
  destruct w as [|c w]; [congruence|].
  simpl in Hsep. apply orb_false_iff in Hsep. destruct Hsep as (Hc & _).
  apply Ascii.eqb_neq in Hc.
  destruct cs; [exists c, w | eexists c, _]; split; try exact Hc; reflexivity.
Qed.

Lemma concat_ends_sep (Y : list string) (a b : string) :
  Y <> [] ->
  exists pre, String.concat "/" (Y ++ [a; b]) = pre ++ "/" ++ a ++ "/" ++ b.
Proof.
  induction Y as [|y Y IH]; [congruence|]. intros _.
  change ((y :: Y) ++ [a; b])%list with (y :: (Y ++ [a; b]))%list.
  rewrite concat_cons by (destruct Y; discriminate).
  destruct Y as [|y' Y].
  - exists y. reflexivity.
  - destruct IH as (pre & ->); [discriminate|].
    exists (y ++ "/" ++ pre). now rewrite !str_app_assoc.
Qed.

(** X4: when the working directory is an absolute POSIX path, the entry a
    completed evaluation puts in front of [sys.path] ends in
    [/python/src]. *)
Theorem prepended_names_python_src (e : env) (st : interp) (d : string) :
  load e = Returned tt st ->
  env_cwd e = Some d ->
  PosixPath.isabs d = true ->
  exists pre, sys_path st = (pre ++ "/python/src") :: env_sys_path e.
Proof.
  intros H E Habs. loaded H. cbn [sys_path].
  assert (d0 = d) by congruence. subst d0.
  destruct (python_src_shape d) as (n & -> & Hn & _).
  set (Y := PosixPath.normpath_step n
              (fold_left (PosixPath.normpath_step n) (PosixPath.split d) []) "..").
  destruct Y as [|y Y'] eqn:EY.
  - destruct (Hn Habs) as [-> | ->].
    + exists EmptyString. reflexivity.
    + exists "/". reflexivity.
  - destruct (concat_ends_sep (y :: Y') "python" "src") as (pre & ->);
      [discriminate|].
    exists (String.concat EmptyString (repeat "/" n) ++ pre).
    now rewrite str_app_assoc.
Qed.

Lemma prepended_names_python_src_witness :
  load env1 = Returned tt st1 /\
  env_cwd env1 = Some "/srv/build/docs" /\
  PosixPath.isabs "/srv/build/docs" = true /\
  exists pre, sys_path st1 = (pre ++ "/python/src") :: env_sys_path env1.
Proof.
  assert (H : load env1 = Returned tt st1) by (vm_compute; reflexivity).
  assert (E : env_cwd env1 = Some "/srv/build/docs") by reflexivity.
  assert (A : PosixPath.isabs "/srv/build/docs" = true)
    by (vm_compute; reflexivity).
  split; [exact H|]. split; [exact E|]. split; [exact A|].
  exact (prepended_names_python_src env1 st1 _ H E A).
Defined.

(** X5: when the working directory is an absolute path, so is the entry
    put in front of [sys.path]. *)
Theorem prepended_is_absolute (e : env) (st : interp) (d : string) :
  load e = Returned tt st ->
  env_cwd e = Some d ->
  PosixPath.isabs d = true ->
  exists p, sys_path st = p :: env_sys_path e /\ PosixPath.isabs p = true.
Proof.
  intros H E Habs. loaded H. cbn [sys_path].
  assert (d0 = d) by congruence. subst d0.
  exists (python_src d). split; [reflexivity|].
  destruct (python_src_shape d) as (n & -> & Hn & _).
  destruct (Hn Habs) as [-> | ->]; cbn [repeat String.concat];
    apply (startswith_sep_app _ _).
Qed.

Lemma prepended_is_absolute_witness :
  load env0 = Returned tt st0 /\
  env_cwd env0 = Some "/home/ci/agentic-control/docs" /\
  PosixPath.isabs "/home/ci/agentic-control/docs" = true /\
  exists p, sys_path st0 = p :: env_sys_path env0 /\ PosixPath.isabs p = true.
Proof.
  assert (H : load env0 = Returned tt st0) by (vm_compute; reflexivity).
  assert (E : env_cwd env0 = Some "/home/ci/agentic-control/docs") by reflexivity.
  assert (A : PosixPath.isabs "/home/ci/agentic-control/docs" = true)
    by (vm_compute; reflexivity).
  split; [exact H|]. split; [exact E|]. split; [exact A|].
  exact (prepended_is_absolute env0 st0 _ H E A).
Defined.

(** X6: when the working directory is [/c1/.../cn/name] in normal form
    (plain components), the entry put in front of [sys.path] is
    [/c1/.../cn/python/src]: the [python/src] directory beside the working
    directory. *)
Theorem prepended_is_sibling (e : env) (st : interp)
        (comps : list string) (name : string) :
  load e = Returned tt st ->
  env_cwd e = Some (rooted (comps ++ [name])) ->
  forallb plain_component (comps ++ [name]) = true ->
  sys_path st = rooted (comps ++ ["python"; "src"]) :: env_sys_path e.
Proof.
  intros H E Hplain. loaded H. cbn [sys_path].
  assert (d = rooted (comps ++ [name])) by congruence. subst d.
  f_equal.
  assert (Hne : (comps ++ [name])%list <> []) by (destruct comps; discriminate).
  destruct (python_src_shape (rooted (comps ++ [name]))) as (n & -> & _ & Hn).
  destruct (concat_plain_head _ Hne Hplain) as (c & rest & Hc & Hsep).
  assert (n = 1%nat) as ->.
  { apply (Hn c rest); [|exact Hsep]. unfold rooted. now rewrite Hc. }
  unfold rooted at 1.
  change ("/" ++ String.concat "/" (comps ++ [name]))
    with (String "/" (String.concat "/" (comps ++ [name]))).
  change (PosixPath.split (String "/" (String.concat "/" (comps ++ [name]))))
    with (EmptyString :: PosixPath.split (String.concat "/" (comps ++ [name]))).
  rewrite (split_concat _ Hne Hplain).
  cbn [fold_left]. rewrite step_empty, (fold_plain 1 _ [] Hplain).
  cbn [app]. rewrite step_dotdot.
  - reflexivity.
  - rewrite forallb_app in Hplain. apply andb_true_iff in Hplain.
    destruct Hplain as (_ & Hname). cbn [forallb] in Hname.
    now rewrite andb_true_r in Hname.
Qed.

Lemma prepended_is_sibling_witness :
  load env0 = Returned tt st0 /\
  env_cwd env0 = Some (rooted (["home"; "ci"; "agentic-control"] ++ ["docs"])) /\
  forallb plain_component (["home"; "ci"; "agentic-control"] ++ ["docs"]) = true /\
  sys_path st0 =
  rooted (["home"; "ci"; "agentic-control"] ++ ["python"; "src"])
  :: env_sys_path env0.
Proof.
  assert (H : load env0 = Returned tt st0) by (vm_compute; reflexivity).
  assert (E : env_cwd env0 =
              Some (rooted (["home"; "ci"; "agentic-control"] ++ ["docs"])))
    by (vm_compute; reflexivity).
  assert (P : forallb plain_component
                      (["home"; "ci"; "agentic-control"] ++ ["docs"]) = true)
    by (vm_compute; reflexivity).
  split; [exact H|]. split; [exact E|]. split; [exact P|].
  exact (prepended_is_sibling env0 st0 _ _ H E P).
Defined.

(** ** The order of the sections *)

Lemma bind_all_app (a b g : Dict.t) :
  bind_all (a ++ b)%list g = bind_all b (bind_all a g).
Proof. unfold bind_all. apply fold_left_app. Qed.

Lemma run_section_bind_all (x : section) (c : option string)
      (p m : list string) (g : Dict.t) (i : import_system) :
  run_section x (mkInterp c p m g i) =
  Returned tt (mkInterp c p m (bind_all (bindings_of x) g) i).
Proof. destruct x; vm_compute; reflexivity. Qed.

Lemma run_sections_bind_all (l : list section) (c : option string)
      (p m : list string) (g : Dict.t) (i : import_system) :
  run_sections l (mkInterp c p m g i) =
  Returned tt (mkInterp c p m (bind_all (flat_map bindings_of l) g) i).
Proof.
  revert g. induction l as [|x l IH]; intros g.
  - reflexivity.
  - cbn [run_sections flat_map]. unfold bind at 1.
    rewrite run_section_bind_all, IH, bind_all_app. reflexivity.
Qed.

Lemma settings_as_sections (st : interp) :
  settings st = run_sections source_order st.
Proof.
  destruct st as [c p m g i].
  rewrite run_sections_bind_all, settings_bind_all.
  vm_compute. reflexivity.
Qed.

Lemma sections_nodup :
  NoDup (Dict.keys (flat_map bindings_of source_order)).
Proof. apply nodup_strings. vm_compute. reflexivity. Qed.

(** X7: the four sections of assignments can be evaluated in any order:
    every order completes, touches nothing but the namespace, and leaves
    each name with the same value as the order of the source does. *)
Theorem sections_commute (l : list section) (st : interp) :
  Permutation l source_order ->
  exists sa sb,
    run_sections l st = Returned tt sa /\
    settings st = Returned tt sb /\
    cwd sa = cwd st /\ sys_path sa = sys_path st /\
    sys_modules sa = sys_modules st /\
    forall k, Dict.get k (globals sa) = Dict.get k (globals sb).
Proof.
  intros Hperm. destruct st as [c p m g i].
  eexists. eexists.
  split; [apply run_sections_bind_all|].
  split; [rewrite settings_as_sections; apply run_sections_bind_all|].
  cbn [cwd sys_path sys_modules globals].
  repeat (split; [reflexivity|]).
  intros k.
  assert (Hflat : Permutation (flat_map bindings_of l)
                              (flat_map bindings_of source_order))
    by now apply Permutation_flat_map.
  assert (Hnd : NoDup (Dict.keys (flat_map bindings_of l))).
  { apply (Permutation_NoDup (l := Dict.keys (flat_map bindings_of source_order))).
    - unfold Dict.keys. apply Permutation_map. now symmetry.
    - exact sections_nodup. }
  rewrite !get_bind_all.
  rewrite (get_rev_nodup _ k Hnd), (get_rev_nodup _ k sections_nodup).
  rewrite (get_perm_nodup _ (flat_map bindings_of source_order) k Hnd);
    [reflexivity | | exact sections_nodup].
  intros kv. split; apply Permutation_in; [exact Hflat | now symmetry].
Qed.

Lemma sections_commute_witness :
  Permutation [ExtensionConfiguration; ProjectInformation;
               OptionsForHtmlOutput; GeneralConfiguration] source_order /\
  exists sa sb,
    run_sections [ExtensionConfiguration; ProjectInformation;
                  OptionsForHtmlOutput; GeneralConfiguration] st_prepared
    = Returned tt sa /\
    settings st_prepared = Returned tt sb /\
    Dict.get "release" (globals sa) = Dict.get "release" (globals sb).
Proof.
  assert (P : Permutation [ExtensionConfiguration; ProjectInformation;
                           OptionsForHtmlOutput; GeneralConfiguration]
                          source_order).
  { unfold source_order.
    apply perm_trans with
      [ProjectInformation; ExtensionConfiguration;
       OptionsForHtmlOutput; GeneralConfiguration]; [apply perm_swap|].
    apply perm_skip.
    apply perm_trans with
      [GeneralConfiguration; OptionsForHtmlOutput; ExtensionConfiguration].
    - apply perm_trans with
        [OptionsForHtmlOutput; ExtensionConfiguration; GeneralConfiguration].
      + apply perm_swap.
      + apply perm_trans with
          [OptionsForHtmlOutput; GeneralConfiguration; ExtensionConfiguration].
        * apply perm_skip, perm_swap.
        * apply perm_swap.
    - apply Permutation_refl. }
  split; [exact P|].
  destruct (sections_commute _ st_prepared P)
    as (sa & sb & Ha & Hb & _ & _ & _ & Hget).
  exists sa, sb. split; [exact Ha|]. split; [exact Hb|]. exact (Hget "release").
Defined.

(** ** Settings that go together *)

(** X8: every setting of the extension section other than
    [html_css_files] belongs to an extension, and that extension is in
    the [extensions] list: no extension is configured without being
    activated. *)
Theorem configured_extensions_are_active (e : env) (st : interp) (k : string) :
  load e = Returned tt st ->
  In k (Dict.keys (bindings_of ExtensionConfiguration)) ->
  k <> "html_css_files" ->
  exists ext xs,
    extension_of k = Some ext /\
    Dict.get "extensions" (globals st) = Some (PyList xs) /\
    In (PyStr ext) xs.
Proof.
  intros H Hin Hne. loaded H. cbn [globals].
  vm_compute in Hin.
  repeat (destruct Hin as [<- | Hin];
    [first
       [ exfalso; apply Hne; reflexivity
       | eexists _, _; split; [vm_compute; reflexivity|];
         split; [vm_compute; reflexivity|];
         cbn [In]; repeat (first [left; reflexivity | right]) ] |]).
  destruct Hin.
Qed.

Lemma configured_extensions_are_active_witness :
  load env0 = Returned tt st0 /\
  In "myst_heading_anchors" (Dict.keys (bindings_of ExtensionConfiguration)) /\
  "myst_heading_anchors" <> "html_css_files" /\
  exists ext xs,
    extension_of "myst_heading_anchors" = Some ext /\
    Dict.get "extensions" (globals st0) = Some (PyList xs) /\
    In (PyStr ext) xs.
Proof.
  assert (H : load env0 = Returned tt st0) by (vm_compute; reflexivity).
  assert (Hin : In "myst_heading_anchors"
                   (Dict.keys (bindings_of ExtensionConfiguration))).
  { vm_compute. repeat (first [left; reflexivity | right]). }
  assert (Hne : "myst_heading_anchors" <> "html_css_files") by discriminate.
  split; [exact H|]. split; [exact Hin|]. split; [exact Hne|].
  exact (configured_extensions_are_active env0 st0 _ H Hin Hne).
Defined.

(** X9: the project metadata agrees with itself: the short HTML title is
    the project name, the HTML title is the project name followed by
    [ Documentation], and the copyright line is a year (four decimal
    digits), a comma and the author. *)
Theorem metadata_agrees (e : env) (st : interp) :
  load e = Returned tt st ->
  exists name who year,
    Dict.get "project" (globals st) = Some (PyStr name) /\
    Dict.get "html_short_title" (globals st) = Some (PyStr name) /\
    Dict.get "html_title" (globals st) = Some (PyStr (name ++ " Documentation")) /\
    Dict.get "author" (globals st) = Some (PyStr who) /\
    Dict.get "copyright" (globals st) = Some (PyStr (year ++ ", " ++ who)) /\
    is_year year = true /\
    name <> EmptyString /\ who <> EmptyString.
Proof.
  intros H. loaded H. cbn [globals].
  exists "agentic-control", "Jon Bogaty", "2025".
  repeat (split; [vm_compute; reflexivity|]).
  split; discriminate.
Qed.

Lemma metadata_agrees_witness :
  load env0 = Returned tt st0 /\
  Dict.get "copyright" (globals st0) = Some (PyStr "2025, Jon Bogaty") /\
  exists name who year,
    Dict.get "project" (globals st0) = Some (PyStr name) /\
    Dict.get "html_short_title" (globals st0) = Some (PyStr name) /\
    Dict.get "html_title" (globals st0) = Some (PyStr (name ++ " Documentation")) /\
    Dict.get "author" (globals st0) = Some (PyStr who) /\
    Dict.get "copyright" (globals st0) = Some (PyStr (year ++ ", " ++ who)) /\
    is_year year = true /\
    name <> EmptyString /\ who <> EmptyString.
Proof.
  assert (H : load env0 = Returned tt st0) by (vm_compute; reflexivity).
  split; [exact H|]. split; [vm_compute; reflexivity|].
  exact (metadata_agrees env0 st0 H).
Defined.

(** X10: the JavaScript source tree is named once: the only entry of
    [js_source_path] is [root_for_relative_js_paths], and
    [jsdoc_config_path] lies in the same parent directory [..]. *)
Theorem js_paths_agree (e : env) (st : interp) :
  load e = Returned tt st ->
  exists root conf,
    Dict.get "root_for_relative_js_paths" (globals st) = Some (PyStr root) /\
    Dict.get "js_source_path" (globals st) = Some (PyList [PyStr root]) /\
    Dict.get "jsdoc_config_path" (globals st) = Some (PyStr conf) /\
    String.prefix "../" root = true /\
    String.prefix "../" conf = true.
Proof.
  intros H. loaded H. cbn [globals].
  exists "../src", "../typedoc.json".
  repeat split; vm_compute; reflexivity.
Qed.

Lemma js_paths_agree_witness :
  load env0 = Returned tt st0 /\
  exists root conf,
    Dict.get "root_for_relative_js_paths" (globals st0) = Some (PyStr root) /\
    Dict.get "js_source_path" (globals st0) = Some (PyList [PyStr root]) /\
    Dict.get "jsdoc_config_path" (globals st0) = Some (PyStr conf) /\
    String.prefix "../" root = true /\
    String.prefix "../" conf = true.
Proof.
  assert (H : load env0 = Returned tt st0) by (vm_compute; reflexivity).
  split; [exact H|]. exact (js_paths_agree env0 st0 H).
Defined.

Lemma nodup_map_str (names : list string) :
  NoDup names -> NoDup (map PyStr names).
Proof.
  induction 1 as [|x l Hx Hl IH]; simpl; constructor; [|exact IH].
  intros Hin. apply in_map_iff in Hin. destruct Hin as (y & [= ->] & Hy).
  exact (Hx Hy).
Qed.

(** X11: every list-valued setting, the three the claims do not name
    included, holds strings only, and none of them names an element
    twice. *)
Theorem list_settings_are_distinct_strings (e : env) (st : interp)
        (k : string) (xs : list pyval) :
  load e = Returned tt st ->
  Dict.get k (globals st) = Some (PyList xs) ->
  xs = map PyStr (names_of xs) /\ NoDup xs.
Proof.
  intros H G. loaded H. cbn [globals] in G.
  apply get_some_in in G. unfold conf_namespace in G. cbn [In] in G.
  repeat (destruct G as [G | G];
    [first
       [ discriminate G
       | injection G as <- <-;
         split; [reflexivity|];
         match goal with
         | |- NoDup ?l => change l with (map PyStr (names_of l))
         end;
         apply nodup_map_str, nodup_strings; vm_compute; reflexivity ] |]).
  destruct G.
Qed.

Lemma list_settings_are_distinct_strings_witness :
  load env0 = Returned tt st0 /\
  Dict.get "myst_enable_extensions" (globals st0) =
  Some (PyList (map PyStr ["colon_fence"; "deflist"; "fieldlist";
                           "html_admonition"; "html_image"; "replacements";
                           "smartquotes"; "strikethrough"; "substitution";
                           "tasklist"])) /\
  NoDup (map PyStr ["colon_fence"; "deflist"; "fieldlist";
                    "html_admonition"; "html_image"; "replacements";
                    "smartquotes"; "strikethrough"; "substitution";
                    "tasklist"]).
Proof.
  assert (H : load env0 = Returned tt st0) by (vm_compute; reflexivity).
  assert (G : Dict.get "myst_enable_extensions" (globals st0) =
              Some (PyList (map PyStr ["colon_fence"; "deflist"; "fieldlist";
                                       "html_admonition"; "html_image";
                                       "replacements"; "smartquotes";
                                       "strikethrough"; "substitution";
                                       "tasklist"])))
    by (vm_compute; reflexivity).
  split; [exact H|]. split; [exact G|].
  exact (proj2 (list_settings_are_distinct_strings env0 st0 _ _ H G)).
Defined.

(** X12: no dictionary-valued setting writes a key twice, so no entry of
    a dictionary literal is lost to a later one. *)
Theorem dict_settings_have_distinct_keys (e : env) (st : interp)
        (k : string) (d : Dict.t) :
  load e = Returned tt st ->
  Dict.get k (globals st) = Some (PyDict d) ->
  NoDup (Dict.keys d) /\
  forall k' v, In (k', v) d -> Dict.get k' d = Some v.
Proof.
  intros H G. loaded H. cbn [globals] in G.
  assert (Hnd : NoDup (Dict.keys d)).
  { apply get_some_in in G. unfold conf_namespace in G. cbn [In] in G.
    repeat (destruct G as [G | G];
      [first
         [ discriminate G
         | injection G as <- <-; apply nodup_strings; vm_compute; reflexivity ] |]).
    destruct G. }
  split; [exact Hnd|].
  intros k' v. now apply in_get_nodup.
Qed.

Lemma dict_settings_have_distinct_keys_witness :
  load env0 = Returned tt st0 /\
  Dict.get "autodoc_default_options" (globals st0) =
  Some (PyDict [("members", PyBool true);
                ("member-order", PyStr "bysource");
                ("special-members", PyStr "__init__");
                ("undoc-members", PyBool true);
                ("exclude-members", PyStr "__weakref__");
                ("show-inheritance", PyBool true)]) /\
  NoDup ["members"; "member-order"; "special-members"; "undoc-members";
         "exclude-members"; "show-inheritance"].
Proof.
  assert (H : load env0 = Returned tt st0) by (vm_compute; reflexivity).
  assert (G : Dict.get "autodoc_default_options" (globals st0) =
              Some (PyDict [("members", PyBool true);
                            ("member-order", PyStr "bysource");
                            ("special-members", PyStr "__init__");
                            ("undoc-members", PyBool true);
                            ("exclude-members", PyStr "__weakref__");
                            ("show-inheritance", PyBool true)]))
    by (vm_compute; reflexivity).
  split; [exact H|]. split; [exact G|].
  exact (proj1 (dict_settings_have_distinct_keys env0 st0 _ _ H G)).
Defined.

(** ** What an evaluation never takes away *)

(** X13: an evaluation, whether it completes or raises, takes nothing
    away from the interpreter: the former [sys.path] is kept, in order,
    behind at most one new entry; the modules loaded before stay loaded,
    in order; the working directory is not changed.  When it completes,
    [os] and [sys] are loaded. *)
Theorem evaluation_only_adds (st : interp) :
  let st' := state_of (conf_py st) in
  (exists front, sys_path st' = (front ++ sys_path st)%list /\
                 (List.length front <= 1)%nat) /\
  (exists add, sys_modules st' = (sys_modules st ++ add)%list) /\
  cwd st' = cwd st /\
  (forall sa, conf_py st = Returned tt sa ->
     existsb (String.eqb "os") (sys_modules sa) = true /\
     existsb (String.eqb "sys") (sys_modules sa) = true).
Proof.
  cbv zeta.
  assert (Hext : forall mods ok,
             resolve_os_sys (imports st) (sys_modules st) = (mods, ok) ->
             exists add, mods = (sys_modules st ++ add)%list).
  { intros mods ok Hr.
    destruct (resolve_os_sys_extends (imports st) (sys_modules st)) as (a & Ha).
    rewrite Hr in Ha. now exists a. }
  split; [|split; [|split]].
  - destruct (conf_py_evaluated st)
      as [Hi | mods g Hi Hr Hg | mods Hi Hr Hc | mods d Hi Hr Hc];
      cbn [state_of sys_path].
    + exists []. split; [reflexivity | apply le_S, le_n].
    + exists []. split; [reflexivity | apply le_S, le_n].
    + exists []. split; [reflexivity | apply le_S, le_n].
    + exists [python_src d]. split; [reflexivity | apply le_n].
  - destruct (conf_py_evaluated st)
      as [Hi | mods g Hi Hr Hg | mods Hi Hr Hc | mods d Hi Hr Hc];
      cbn [state_of sys_modules].
    + exists []. now rewrite app_nil_r.
    + exact (Hext _ _ Hr).
    + exact (Hext _ _ Hr).
    + exact (Hext _ _ Hr).
  - destruct (conf_py_evaluated st)
      as [Hi | mods g Hi Hr Hg | mods Hi Hr Hc | mods d Hi Hr Hc];
      cbn [state_of cwd]; congruence.
  - intros sa H. apply conf_py_inv in H.
    destruct H as (mods & d & _ & Hr & _ & ->).
    cbn [sys_modules]. exact (resolve_os_sys_loaded _ _ _ Hr).
Qed.

Lemma evaluation_only_adds_witness :
  sys_modules (state_of (load env_bare)) =
  (env_sys_modules env_bare ++
   ["os"; "stat"; "_stat"; "_collections_abc"; "posixpath"; "genericpath";
    "os.path"])%list /\
  existsb (String.eqb "os") (sys_modules (state_of (load env_bare))) = true /\
  sys_modules (state_of (load env_os_blocked)) = env_sys_modules env_os_blocked.
Proof.
  destruct (evaluation_only_adds (fresh env_bare)) as (_ & _ & _ & Hl).
  split; [vm_compute; reflexivity|].
  split; [|vm_compute; reflexivity].
  apply (Hl (state_of (load env_bare))). vm_compute. reflexivity.
Defined.
